(** * Fitness tracker: a shallow embedding of [main.py] and [homework.py]

    The tracker reads a package [(tag, values)] from a sensor, builds a
    training object of the class selected by the tag, derives distance, mean
    speed and spent calories, and renders an information message.

    Conventions of the embedding.
    - A Python value stored in an attribute or in a package is [None], an
      [int] (an integer of any size) or a [float] (a binary64 number: the
      primitive floats, with their infinities, their NaN and their two
      zeros).  The operators round, overflow and raise as Python's do.
    - A Python exception is a value of [exn]; code that may raise returns a
      [result].
    - Methods of [main.py] write to [self]; they are functions of the state
      monad [M] over the object.  The methods of [homework.py] write nothing
      and are plain functions.
    - A dictionary literal is a [gmap] with [string] keys. *)

From Stdlib Require Import ZArith QArith Qabs Lia Ascii String List Floats.
From stdpp Require Import gmap strings list.

Set Warnings "-inexact-float".

(** ** Values, exceptions, results *)

Inductive value : Type :=
| VNone
| VInt (n : Z)
| VFloat (f : float).

Inductive type_error : Type :=
| BadArity      (* a call with the wrong number of positional arguments *)
| BadOperand    (* an operator applied to None *)
| BadFormat.    (* a numeric format specification applied to None *)

Inductive exn : Type :=
| Exception (msg : string)
| KeyError (key : string)
| TypeError (why : type_error)
| AttributeError (name : string)
| ZeroDivisionError
| OverflowError
| NotImplementedError.

Inductive result (A : Type) : Type :=
| OK (a : A)
| Raise (e : exn).
Arguments OK {A} a.
Arguments Raise {A} e.

Definition is_None (v : value) : bool :=
  match v with VNone => true | _ => false end.

(** ** Sequencing computations that may raise *)

Definition rbind {A B : Type} (r : result A) (k : A -> result B) : result B :=
  match r with
  | OK a => k a
  | Raise e => Raise e
  end.

Declare Scope result_scope.
Delimit Scope result_scope with res.
Notation "x <- r ;; k" := (rbind r (fun x => k))
  (at level 100, r at next level, right associativity) : result_scope.

(** ** Python arithmetic *)

(** [float(n)]: the nearest binary64 number, a tie to the even one; an
    [int] that rounds beyond the largest float is too large to convert. *)
Definition float_of_int (n : Z) : result float :=
  match binary_normalize prec emax n 0 false with
  | S754_infinity _ => Raise OverflowError
  | sf => OK (SF2Prim sf)
  end.

(** [a / b] on two [int]s: the binary64 number nearest to the quotient.
    The quotient of the magnitudes is computed to 57 bits at least, with
    one more bit that tells whether anything was left, and rounded once. *)
Definition int_true_div (a b : Z) : result float :=
  if (b =? 0)%Z then Raise ZeroDivisionError
  else
    let negate := xorb (a <? 0)%Z (b <? 0)%Z in
    let a' := Z.abs a in
    let b' := Z.abs b in
    let k := Z.max 0 (Z.log2 b' + 58 - Z.log2 a') in
    let q := (a' * 2 ^ k / b')%Z in
    let sticky := if ((a' * 2 ^ k) mod b' =? 0)%Z then 0%Z else 1%Z in
    let m := (2 * q + sticky)%Z in
    match binary_normalize prec emax (if negate then - m else m)%Z
            (- k - 1) negate with
    | S754_infinity _ => Raise OverflowError
    | sf => OK (SF2Prim sf)
    end.

(** The operand of a float operation: an [int] is converted. *)
Definition as_float (v : value) : result float :=
  match v with
  | VFloat f => OK f
  | VInt n => float_of_int n
  | VNone => Raise (TypeError BadOperand)
  end.

Definition py_mul (a b : value) : result value :=
  match a, b with
  | VNone, _ | _, VNone => Raise (TypeError BadOperand)
  | VInt x, VInt y => OK (VInt (x * y))
  | _, _ =>
      (x <- as_float a ;; y <- as_float b ;; OK (VFloat (x * y)))%res
  end.

Definition py_add (a b : value) : result value :=
  match a, b with
  | VNone, _ | _, VNone => Raise (TypeError BadOperand)
  | VInt x, VInt y => OK (VInt (x + y))
  | _, _ =>
      (x <- as_float a ;; y <- as_float b ;; OK (VFloat (x + y)))%res
  end.

(** True division [a / b].  With a float operand, the other is converted
    and the divisor compared with zero; an [int] divisor is zero as a float
    exactly when it is the [int] zero. *)
Definition py_div (a b : value) : result value :=
  match a, b with
  | VNone, _ | _, VNone => Raise (TypeError BadOperand)
  | VInt x, VInt y => (q <- int_true_div x y ;; OK (VFloat q))%res
  | _, VInt y =>
      (x <- as_float a ;;
       if (y =? 0)%Z then Raise ZeroDivisionError
       else (d <- float_of_int y ;; OK (VFloat (x / d))))%res
  | _, VFloat d =>
      (x <- as_float a ;;
       if (d =? 0)%float then Raise ZeroDivisionError
       else OK (VFloat (x / d)))%res
  end.

(** [x ** 2] on a float.  The square is taken as the float nearest to the
    exact one (what the [pow] of the C library returns for a square); a
    finite float whose square is beyond the largest float raises, the
    square of an infinity is an infinity. *)
Definition float_pow_2 (x : float) : result float :=
  if is_infinity x then OK infinity
  else if is_infinity (x * x) then Raise OverflowError
  else OK (x * x)%float.

(** [a ** 2] *)
Definition py_pow_2 (a : value) : result value :=
  match a with
  | VNone => Raise (TypeError BadOperand)
  | VInt x => OK (VInt (x * x))
  | VFloat x => (sq <- float_pow_2 x ;; OK (VFloat sq))%res
  end.

(** ** Rendering numbers: the format specifications [.3f] and [,.3f] *)

Local Open Scope Q_scope.

(** Nearest integer, ties to the even one. *)
Definition round_half_even (q : Q) : Z :=
  let n := Qnum q in
  let d := Zpos (Qden q) in
  let fl := (n / d)%Z in
  match (2 * (n mod d) ?= d)%Z with
  | Lt => fl
  | Gt => (fl + 1)%Z
  | Eq => if Z.even fl then fl else (fl + 1)%Z
  end.

Definition digit (d : Z) : ascii := ascii_of_nat (48 + Z.to_nat d).

Definition is_digit (c : ascii) : bool :=
  let n := nat_of_ascii c in ((48 <=? n)%nat && (n <=? 57)%nat)%bool.

(** Decimal digits of a natural number, least significant first; [fuel]
    bounds the number of digits. *)
Fixpoint digits_rev (fuel : nat) (n : Z) : list ascii :=
  match fuel with
  | O => []
  | S fuel' =>
      if (n <? 10)%Z then [digit n]
      else digit (n mod 10) :: digits_rev fuel' (n / 10)
  end.

(** Enough fuel for every digit of [n]: [n < 2 ^ fuel <= 10 ^ fuel]. *)
Definition digits_fuel (n : Z) : nat := S (Z.to_nat (Z.log2 n)).

Definition comma : ascii := ","%char.

(** Inserts a comma after every third digit of a least-significant-first
    digit list, when more digits follow. *)
Fixpoint group3_rev (l : list ascii) : list ascii :=
  match l with
  | a :: b :: c :: ((_ :: _) as rest) => a :: b :: c :: comma :: group3_rev rest
  | _ => l
  end.

Definition int_digits (grouping : bool) (n : Z) : list ascii :=
  let ds := digits_rev (digits_fuel n) n in
  rev (if grouping then group3_rev ds else ds).

Definition frac_digits (f : Z) : list ascii :=
  [digit (f / 100); digit (f / 10 mod 10); digit (f mod 10)].

(** The text of [n] thousandths, with a minus sign when [neg]. *)
Definition format_thousandths (grouping neg : bool) (n : Z) : string :=
  string_of_list_ascii
    ((if neg then ["-"%char] else []) ++
     int_digits grouping (n / 1000) ++ "."%char :: frac_digits (n mod 1000)).

(** The magnitude [m * 2 ^ e] of a finite float. *)
Definition magnitude (m : positive) (e : Z) : Q :=
  match e with
  | Z0 => Zpos m # 1
  | Zpos p => (Zpos m * 2 ^ Zpos p) # 1
  | Zneg p => Zpos m # (2 ^ p)
  end.

(** [format(f, '.3f')] and, with [grouping], [format(f, ',.3f')] of a
    float: the exact value of the float is rounded to the nearest
    thousandth, a tie to the even one; the sign is the sign of the float,
    also when it rounds to zero. *)
Definition format_float (grouping : bool) (f : float) : string :=
  match Prim2SF f with
  | S754_nan => "nan"
  | S754_infinity s => if s then "-inf" else "inf"
  | S754_zero s => format_thousandths grouping s 0
  | S754_finite s m e =>
      format_thousandths grouping s (round_half_even (magnitude m e * 1000))
  end.

(** A replacement field [{v:.3f}] or [{v:,.3f}] of an f-string: an [int]
    is converted to a float first. *)
Definition py_format (grouping : bool) (v : value) : result string :=
  match v with
  | VFloat f => OK (format_float grouping f)
  | VInt n => (f <- float_of_int n ;; OK (format_float grouping f))%res
  | VNone => Raise (TypeError BadFormat)
  end.

Local Open Scope string_scope.

(** ** [InfoMessage]: the same in both files (a dataclass in [main.py], a
    class with an explicit constructor in [homework.py]) *)

Module InfoMessage.

Record t : Type := Build {
  training_type : string;
  duration : value;
  distance : value;
  speed : value;
  calories : value
}.

(** The f-string of [get_message]: the replacement fields are rendered
    from left to right. *)
Definition get_message (self : t) : result string :=
  (d <- py_format false (duration self) ;;
   s <- py_format true (distance self) ;;
   v <- py_format true (speed self) ;;
   c <- py_format true (calories self) ;;
   OK ("Тип тренировки: " +:+ training_type self +:+ "; "
       +:+ "Длительность: " +:+ d +:+ " ч.; "
       +:+ "Дистанция: " +:+ s +:+ " км; "
       +:+ "Ср. скорость: " +:+ v +:+ " км/ч; "
       +:+ "Потрачено ккал: " +:+ c +:+ "."))%res.

End InfoMessage.

(** ** Classes: the same hierarchy and class attributes in both files *)

Inductive class : Type :=
| Training
| Running
| SportsWalking
| Swimming.

(** [cls.__name__] *)
Definition class_name (c : class) : string :=
  match c with
  | Training => "Training"
  | Running => "Running"
  | SportsWalking => "SportsWalking"
  | Swimming => "Swimming"
  end.

(** The attributes that the constructor of a subclass adds to those of
    [Training]. *)
Inductive own_attrs : Type :=
| NoAttrs
| WalkingAttrs (height : value)
| SwimmingAttrs (length_pool count_pool : value).

(** [self.LEN_STEP]: the length of one step, of one stroke for
    [Swimming], which overrides the attribute. *)
Definition LEN_STEP (c : class) : value :=
  match c with
  | Swimming => VFloat 1.38
  | _ => VFloat 0.65
  end.

Definition M_IN_KM : value := VInt 1000.
Definition MIN_IN_HOUR : value := VInt 60.

Definition CALORIES_MEAN_SPEED_MULTIPLIER : value := VInt 18.
Definition CALORIES_MEAN_SPEED_SHIFT : value := VFloat 1.79.

Definition CALORIES_WEIGHT_FACTOR_1 : value := VFloat 0.035.
Definition CALORIES_WEIGHT_FACTOR_2 : value := VFloat 0.029.
Definition M_TO_SEC_CONVERTER : value := VFloat 0.278.
(** [CM_TO_METERS] in [homework.py]. *)
Definition CM_IN_METER : value := VInt 100.

Definition SPEED_SWIM_SHIFT : value := VFloat 1.1.
Definition CALORIES_SPEED_SWIM_MULTIPLIER : value := VInt 2.

(** [d[k]] *)
Definition subscript {V : Type} (d : gmap string V) (k : string) : result V :=
  match d !! k with
  | Some v => OK v
  | None => Raise (KeyError k)
  end.

(** ** [main.py] *)

Module Main.

Definition SWM : string := "SWM".
Definition RUN : string := "RUN".
Definition WLK : string := "WLK".

(** The right length of the value list of each training. *)
Definition LEN_FOR_SWM : nat := 5.
Definition LEN_FOR_RUN : nat := 3.
Definition LEN_FOR_WLK : nat := 4.

Definition NOT_FOUND : string := "Неизвестная тренировка.".
Definition BAD_DATA : string := "Некорректный пакет данных.".

(** *** Instances *)

Record object : Type := Build {
  class_of : class;
  action : value;
  duration : value;
  weight : value;
  spent_calories : value;
  mean_speed_km_h : value;
  own : own_attrs
}.

(** *** Methods: computations that read and write [self] *)

Definition M (A : Type) : Type := object -> result A * object.

Definition ret {A : Type} (a : A) : M A := fun self => (OK a, self).

Definition bind {A B : Type} (m : M A) (k : A -> M B) : M B :=
  fun self =>
    match m self with
    | (OK a, self') => k a self'
    | (Raise e, self') => (Raise e, self')
    end.

Definition lift {A : Type} (r : result A) : M A := fun self => (r, self).

Definition attr {A : Type} (f : object -> A) : M A := fun self => (OK (f self), self).

Declare Scope method_scope.
Delimit Scope method_scope with M.
Notation "x <- m ;; k" := (bind m (fun x => k))
  (at level 100, m at next level, right associativity) : method_scope.
Notation "m ;; k" := (bind m (fun _ => k))
  (at level 100, right associativity) : method_scope.

Definition height : M value := fun self =>
  match own self with
  | WalkingAttrs h => (OK h, self)
  | _ => (Raise (AttributeError "height"), self)
  end.

Definition length_pool : M value := fun self =>
  match own self with
  | SwimmingAttrs l _ => (OK l, self)
  | _ => (Raise (AttributeError "length_pool"), self)
  end.

Definition count_pool : M value := fun self =>
  match own self with
  | SwimmingAttrs _ c => (OK c, self)
  | _ => (Raise (AttributeError "count_pool"), self)
  end.

Definition set_spent_calories (v : value) : M unit := fun self =>
  (OK tt, {| class_of := class_of self; action := action self;
             duration := duration self; weight := weight self;
             spent_calories := v;
             mean_speed_km_h := mean_speed_km_h self; own := own self |}).

Definition set_mean_speed_km_h (v : value) : M unit := fun self =>
  (OK tt, {| class_of := class_of self; action := action self;
             duration := duration self; weight := weight self;
             spent_calories := spent_calories self;
             mean_speed_km_h := v; own := own self |}).

(** *** [Training] *)

Definition Training_init (c : class) (action duration weight : value)
    (attrs : own_attrs) : object :=
  {| class_of := c; action := action; duration := duration; weight := weight;
     spent_calories := VFloat 0; mean_speed_km_h := VFloat 0; own := attrs |}.

(** No subclass overrides [get_distance]. *)
Definition get_distance : M value :=
  (a <- attr action ;;
   step <- attr (fun self => LEN_STEP (class_of self)) ;;
   m <- lift (py_mul a step) ;;
   lift (py_div m M_IN_KM))%M.

Definition Training_get_mean_speed : M value :=
  (dist <- get_distance ;;
   d <- attr duration ;;
   v <- lift (py_div dist d) ;;
   set_mean_speed_km_h v ;;
   attr mean_speed_km_h)%M.

(** *** [Swimming] *)

Definition Swimming_get_mean_speed : M value :=
  (l <- length_pool ;;
   c <- count_pool ;;
   m <- lift (py_mul l c) ;;
   km <- lift (py_div m M_IN_KM) ;;
   d <- attr duration ;;
   v <- lift (py_div km d) ;;
   set_mean_speed_km_h v ;;
   attr mean_speed_km_h)%M.

(** [self.get_mean_speed()]: the method of the class of [self]. *)
Definition get_mean_speed : M value := fun self =>
  match class_of self with
  | Swimming => Swimming_get_mean_speed self
  | _ => Training_get_mean_speed self
  end.

Definition Swimming_get_spent_calories : M value :=
  (v <- get_mean_speed ;;
   s <- lift (py_add v SPEED_SWIM_SHIFT) ;;
   m <- lift (py_mul s CALORIES_SPEED_SWIM_MULTIPLIER) ;;
   w <- attr weight ;;
   mw <- lift (py_mul m w) ;;
   d <- attr duration ;;
   c <- lift (py_mul mw d) ;;
   set_spent_calories c ;;
   attr spent_calories)%M.

(** *** [Running] *)

Definition Running_get_spent_calories : M value :=
  (v <- get_mean_speed ;;
   m <- lift (py_mul CALORIES_MEAN_SPEED_MULTIPLIER v) ;;
   s <- lift (py_add m CALORIES_MEAN_SPEED_SHIFT) ;;
   w <- attr weight ;;
   sw <- lift (py_mul s w) ;;
   k <- lift (py_div sw M_IN_KM) ;;
   d <- attr duration ;;
   minutes <- lift (py_mul d MIN_IN_HOUR) ;;
   c <- lift (py_mul k minutes) ;;
   set_spent_calories c ;;
   attr spent_calories)%M.

(** *** [SportsWalking] *)

Definition SportsWalking_get_spent_calories : M value :=
  (v <- get_mean_speed ;;
   meters_in_sec <- lift (py_mul v M_TO_SEC_CONVERTER) ;;
   w <- attr weight ;;
   t1 <- lift (py_mul CALORIES_WEIGHT_FACTOR_1 w) ;;
   sq <- lift (py_pow_2 meters_in_sec) ;;
   h <- height ;;
   q <- lift (py_div sq h) ;;
   qf <- lift (py_mul q CALORIES_WEIGHT_FACTOR_2) ;;
   w' <- attr weight ;;
   t2 <- lift (py_mul qf w') ;;
   sum <- lift (py_add t1 t2) ;;
   d <- attr duration ;;
   sd <- lift (py_mul sum d) ;;
   c <- lift (py_mul sd MIN_IN_HOUR) ;;
   set_spent_calories c ;;
   attr spent_calories)%M.

(** [self.get_spent_calories()]: the base class has no formula. *)
Definition get_spent_calories : M value := fun self =>
  match class_of self with
  | Training => (Raise NotImplementedError, self)
  | Running => Running_get_spent_calories self
  | SportsWalking => SportsWalking_get_spent_calories self
  | Swimming => Swimming_get_spent_calories self
  end.

(** The arguments of [InfoMessage] are evaluated from left to right. *)
Definition show_training_info : M InfoMessage.t :=
  (name <- attr (fun self => class_name (class_of self)) ;;
   d <- attr duration ;;
   dist <- get_distance ;;
   v <- get_mean_speed ;;
   c <- get_spent_calories ;;
   ret (InfoMessage.Build name d dist v c))%M.

(** *** Constructors, called with an unpacked argument list *)

Definition new_Running (args : list value) : result object :=
  match args with
  | [action; duration; weight] =>
      OK (Training_init Running action duration weight NoAttrs)
  | _ => Raise (TypeError BadArity)
  end.

(** The height arrives in centimetres and is stored in metres. *)
Definition new_SportsWalking (args : list value) : result object :=
  match args with
  | [action; duration; weight; height] =>
      (h <- py_div height CM_IN_METER ;;
       OK (Training_init SportsWalking action duration weight (WalkingAttrs h)))%res
  | _ => Raise (TypeError BadArity)
  end.

Definition new_Swimming (args : list value) : result object :=
  match args with
  | [action; duration; weight; length_pool; count_pool] =>
      OK (Training_init Swimming action duration weight
            (SwimmingAttrs length_pool count_pool))
  | _ => Raise (TypeError BadArity)
  end.

Definition new (c : class) (args : list value) : result object :=
  match c with
  | Training =>
      match args with
      | [action; duration; weight] =>
          OK (Training_init Training action duration weight NoAttrs)
      | _ => Raise (TypeError BadArity)
      end
  | Running => new_Running args
  | SportsWalking => new_SportsWalking args
  | Swimming => new_Swimming args
  end.

(** *** Reading a package *)

Definition correct_list_length : gmap string nat :=
  {[ SWM := LEN_FOR_SWM; RUN := LEN_FOR_RUN; WLK := LEN_FOR_WLK ]}.

Definition checking_correct_data (wrk_typ : string) (dat_list : list value)
    : result bool :=
  if existsb is_None dat_list then OK false
  else
    (n <- subscript correct_list_length wrk_typ ;;
     if negb (length dat_list =? n)%nat then OK false else OK true)%res.

Definition training_classes : gmap string class :=
  {[ SWM := Swimming; RUN := Running; WLK := SportsWalking ]}.

Definition read_package (workout_tpe : string) (data_list : list value)
    : result object :=
  match training_classes !! workout_tpe with
  | None => Raise (Exception NOT_FOUND)
  | Some _ =>
      (ok <- checking_correct_data workout_tpe data_list ;;
       if negb ok then Raise (Exception BAD_DATA)
       else
         (c <- subscript training_classes workout_tpe ;;
          new c data_list))%res
  end.

(** What [main] prints for an object returned by [read_package]. *)
Definition main (training_obj : object) : result string * object :=
  (info <- show_training_info ;;
   lift (InfoMessage.get_message info))%M training_obj.

(** *** The program *)

(** The argument of [main]: an instance of [Training], or a value of
    another type, of which a string is the one modelled. *)
Inductive any : Type :=
| Instance (o : object)
| Text (s : string).

(** [main(training_obj)]: the line it prints, or the exception it lets
    through. *)
Definition main_any (training_obj : any) : result string :=
  match training_obj with
  | Instance o => fst (main o)
  | Text s => OK s
  end.

Definition packages : list (string * list value) :=
  [ ("SWM", [VInt 720; VInt 1; VInt 80; VInt 25; VInt 40]);
    ("RUN", [VInt 15000; VInt 1; VInt 75]);
    ("WLK", [VInt 9000; VInt 1; VInt 75; VInt 180]) ].

(** The loop of the script over a list of packages: the lines printed, in
    order, and the exception that ends the program, if one does. *)
Fixpoint run (packages : list (string * list value))
    : list string * option exn :=
  match packages with
  | [] => ([], None)
  | (workout_type, data) :: rest =>
      match read_package workout_type data with
      | Raise e => ([], Some e)
      | OK training =>
          match main_any (Instance training) with
          | Raise e => ([], Some e)
          | OK line => let (lines, e) := run rest in (line :: lines, e)
          end
      end
  end.

Definition program : list string * option exn := run packages.

End Main.

(** ** [homework.py]: no validation, no attribute written by a method *)

Module Homework.

Record object : Type := Build {
  class_of : class;
  action : value;
  duration : value;
  weight : value;
  own : own_attrs
}.

Definition attribute (name : string) (o : option value) : result value :=
  match o with
  | Some v => OK v
  | None => Raise (AttributeError name)
  end.

Definition height (self : object) : result value :=
  attribute "height"
    match own self with WalkingAttrs h => Some h | _ => None end.

Definition length_pool (self : object) : result value :=
  attribute "length_pool"
    match own self with SwimmingAttrs l _ => Some l | _ => None end.

Definition count_pool (self : object) : result value :=
  attribute "count_pool"
    match own self with SwimmingAttrs _ c => Some c | _ => None end.

Definition get_distance (self : object) : result value :=
  (m <- py_mul (action self) (LEN_STEP (class_of self)) ;;
   py_div m M_IN_KM)%res.

Definition Training_get_mean_speed (self : object) : result value :=
  (dist <- get_distance self ;;
   py_div dist (duration self))%res.

Definition Swimming_get_mean_speed (self : object) : result value :=
  (l <- length_pool self ;;
   c <- count_pool self ;;
   m <- py_mul l c ;;
   km <- py_div m M_IN_KM ;;
   py_div km (duration self))%res.

Definition get_mean_speed (self : object) : result value :=
  match class_of self with
  | Swimming => Swimming_get_mean_speed self
  | _ => Training_get_mean_speed self
  end.

Definition Running_get_spent_calories (self : object) : result value :=
  (v <- get_mean_speed self ;;
   m <- py_mul CALORIES_MEAN_SPEED_MULTIPLIER v ;;
   s <- py_add m CALORIES_MEAN_SPEED_SHIFT ;;
   sw <- py_mul s (weight self) ;;
   k <- py_div sw M_IN_KM ;;
   minutes <- py_mul (duration self) MIN_IN_HOUR ;;
   py_mul k minutes)%res.

Definition SportsWalking_get_spent_calories (self : object) : result value :=
  (v <- get_mean_speed self ;;
   meters_in_sec <- py_mul v M_TO_SEC_CONVERTER ;;
   t1 <- py_mul CALORIES_WEIGHT_FACTOR_1 (weight self) ;;
   sq <- py_pow_2 meters_in_sec ;;
   h <- height self ;;
   q <- py_div sq h ;;
   qf <- py_mul q CALORIES_WEIGHT_FACTOR_2 ;;
   t2 <- py_mul qf (weight self) ;;
   sum <- py_add t1 t2 ;;
   sd <- py_mul sum (duration self) ;;
   py_mul sd MIN_IN_HOUR)%res.

Definition Swimming_get_spent_calories (self : object) : result value :=
  (v <- get_mean_speed self ;;
   s <- py_add v SPEED_SWIM_SHIFT ;;
   m <- py_mul s CALORIES_SPEED_SWIM_MULTIPLIER ;;
   mw <- py_mul m (weight self) ;;
   py_mul mw (duration self))%res.

(** The body of the method of the base class is [pass]: it returns
    [None]. *)
Definition get_spent_calories (self : object) : result value :=
  match class_of self with
  | Training => OK VNone
  | Running => Running_get_spent_calories self
  | SportsWalking => SportsWalking_get_spent_calories self
  | Swimming => Swimming_get_spent_calories self
  end.

Definition show_training_info (self : object) : result InfoMessage.t :=
  (dist <- get_distance self ;;
   v <- get_mean_speed self ;;
   c <- get_spent_calories self ;;
   OK (InfoMessage.Build (class_name (class_of self)) (duration self) dist v c))%res.

Definition new (c : class) (args : list value) : result object :=
  match c, args with
  | Training, [action; duration; weight] =>
      OK (Build Training action duration weight NoAttrs)
  | Running, [action; duration; weight] =>
      OK (Build Running action duration weight NoAttrs)
  | SportsWalking, [action; duration; weight; height] =>
      (h <- py_div height CM_IN_METER ;;
       OK (Build SportsWalking action duration weight (WalkingAttrs h)))%res
  | Swimming, [action; duration; weight; length_pool; count_pool] =>
      OK (Build Swimming action duration weight
            (SwimmingAttrs length_pool count_pool))
  | _, _ => Raise (TypeError BadArity)
  end.

Definition training_classes : gmap string class :=
  {[ "SWM" := Swimming; "RUN" := Running; "WLK" := SportsWalking ]}.

Definition read_package (workout_tpe : string) (data_list : list value)
    : result object :=
  (c <- subscript training_classes workout_tpe ;;
   new c data_list)%res.

Definition main (training_obj : object) : result string :=
  (info <- show_training_info training_obj ;;
   InfoMessage.get_message info)%res.

(** *** The program *)

Definition packages : list (string * list value) :=
  [ ("SWM", [VInt 720; VInt 1; VInt 80; VInt 25; VInt 40]);
    ("RUN", [VInt 15000; VInt 1; VInt 75]);
    ("WLK", [VInt 9000; VInt 1; VInt 75; VInt 180]) ].

Fixpoint run (packages : list (string * list value))
    : list string * option exn :=
  match packages with
  | [] => ([], None)
  | (workout_type, data) :: rest =>
      match read_package workout_type data with
      | Raise e => ([], Some e)
      | OK training =>
          match main training with
          | Raise e => ([], Some e)
          | OK line => let (lines, e) := run rest in (line :: lines, e)
          end
      end
  end.

Definition program : list string * option exn := run packages.

End Homework.


(** * Vocabulary of the properties *)

(** ** Numbers *)

Definition is_number (v : value) : Prop :=
  match v with VNone => False | _ => True end.

(** [0 < v] *)
Definition positive (v : value) : Prop :=
  match v with
  | VNone => False
  | VInt n => (0 < n)%Z
  | VFloat f => (0 <? f)%float = true
  end.

(** [v == 0] *)
Definition is_zero_value (v : value) : bool :=
  match v with
  | VNone => false
  | VInt n => (n =? 0)%Z
  | VFloat f => (f =? 0)%float
  end.

(** The exceptions of arithmetic on numbers. *)
Definition arithmetic_error (e : exn) : Prop :=
  e = ZeroDivisionError \/ e = OverflowError.

(** [r] returns a value that satisfies [Q], or raises [OverflowError]. *)
Definition only_overflow {A : Type} (Q : A -> Prop) (r : result A) : Prop :=
  match r with
  | OK a => Q a
  | Raise e => e = OverflowError
  end.

(** [r] raises [ZeroDivisionError] or [OverflowError]. *)
Definition raises_arithmetic_error {A : Type} (r : result A) : Prop :=
  match r with
  | OK _ => False
  | Raise e => arithmetic_error e
  end.

(** The attributes of a record of a subclass are numbers. *)
Definition numeric (o : Homework.object) : Prop :=
  is_number (Homework.action o) /\ is_number (Homework.duration o) /\
  is_number (Homework.weight o) /\
  match Homework.class_of o, Homework.own o with
  | Running, NoAttrs => True
  | SportsWalking, WalkingAttrs h => is_number h
  | Swimming, SwimmingAttrs l c => is_number l /\ is_number c
  | _, _ => False
  end.

(** The duration of the record is zero, or it is the record of a walker
    whose height is zero. *)
Definition zero_divisor (o : Homework.object) : bool :=
  is_zero_value (Homework.duration o) ||
  match Homework.own o with
  | WalkingAttrs h => is_zero_value h
  | _ => false
  end.

(** The exceptions of arithmetic on numbers and [None]. *)
Definition operand_error (e : exn) : Prop :=
  e = TypeError BadOperand \/ e = ZeroDivisionError \/ e = OverflowError.

(** [r] raises one of them. *)
Definition fails {A : Type} (r : result A) : Prop :=
  match r with
  | OK _ => False
  | Raise e => operand_error e
  end.

(** [r] returns a number or raises one of them. *)
Definition number_or_fails (r : result value) : Prop :=
  match r with
  | OK v => is_number v
  | Raise e => operand_error e
  end.

(** A record of a subclass, as its constructor leaves it: the height of a
    walker is a number. *)
Definition constructed (o : Homework.object) : Prop :=
  match Homework.class_of o, Homework.own o with
  | Running, NoAttrs => True
  | SportsWalking, WalkingAttrs h => is_number h
  | Swimming, SwimmingAttrs _ _ => True
  | _, _ => False
  end.

(** An attribute read from the package is [None]. *)
Definition holds_None (o : Homework.object) : Prop :=
  Homework.action o = VNone \/ Homework.duration o = VNone \/
  Homework.weight o = VNone \/
  match Homework.own o with
  | SwimmingAttrs l c => l = VNone \/ c = VNone
  | _ => False
  end.

(** ** The invariants of an activity record

    A record of one of the three trainings whose action count is a
    non-negative [int] and whose duration and weight are positive numbers.
    The height of a walker is the quotient by 100 of a positive number of
    centimetres, as the constructor stores it; the length of the pool is a
    positive number and the number of laps a non-negative [int].  The two
    attributes that the methods write may hold anything. *)

Inductive valid : Main.object -> Prop :=
| valid_Running (a : Z) (d w sc ms : value) :
    (0 <= a)%Z -> positive d -> positive w ->
    valid (Main.Build Running (VInt a) d w sc ms NoAttrs)
| valid_SportsWalking (a : Z) (d w height_cm h sc ms : value) :
    (0 <= a)%Z -> positive d -> positive w -> positive height_cm ->
    py_div height_cm CM_IN_METER = OK h ->
    valid (Main.Build SportsWalking (VInt a) d w sc ms (WalkingAttrs h))
| valid_Swimming (a : Z) (d w l : value) (c : Z) (sc ms : value) :
    (0 <= a)%Z -> positive d -> positive w -> positive l -> (0 <= c)%Z ->
    valid (Main.Build Swimming (VInt a) d w sc ms (SwimmingAttrs l (VInt c))).

(** ** What a method may write *)

(** The attributes set by the constructors from the package: everything but
    [spent_calories] and [mean_speed_km_h]. *)
Definition same_inputs (o o' : Main.object) : Prop :=
  Main.class_of o' = Main.class_of o /\
  Main.action o' = Main.action o /\
  Main.duration o' = Main.duration o /\
  Main.weight o' = Main.weight o /\
  Main.own o' = Main.own o.

(** Everything but [mean_speed_km_h]. *)
Definition same_but_speed (o o' : Main.object) : Prop :=
  same_inputs o o' /\ Main.spent_calories o' = Main.spent_calories o.

(** [m] relates by [R] the object it is called on to the object it leaves,
    whether it returns or raises. *)
Definition preserves {A : Type} (R : Main.object -> Main.object -> Prop)
    (m : Main.M A) : Prop :=
  forall self, R self (snd (m self)).

(** ** The record of [homework.py] with the attributes of a record of
    [main.py] *)

Definition forget (o : Main.object) : Homework.object :=
  Homework.Build (Main.class_of o) (Main.action o) (Main.duration o)
    (Main.weight o) (Main.own o).

(** The record after [self.mean_speed_km_h = v] and after
    [self.spent_calories = c]. *)
Definition with_speed (v : value) (o : Main.object) : Main.object :=
  Main.Build (Main.class_of o) (Main.action o) (Main.duration o)
    (Main.weight o) (Main.spent_calories o) v (Main.own o).

Definition with_calories (c : value) (o : Main.object) : Main.object :=
  Main.Build (Main.class_of o) (Main.action o) (Main.duration o)
    (Main.weight o) c (Main.mean_speed_km_h o) (Main.own o).

(** ** The formulas as the specification writes them, in Python's
    arithmetic and in Python's order of evaluation *)

Definition spec_distance (action step : value) : result value :=
  (m <- py_mul action step ;; py_div m (VInt 1000))%res.

Definition spec_mean_speed (action duration : value) : result value :=
  (dist <- spec_distance action (VFloat 0.65) ;; py_div dist duration)%res.

(** [(18 * mean_speed + 1.79) * weight / 1000 * (duration * 60)] *)
Definition spec_Running_calories (action duration weight : value)
    : result value :=
  (mean_speed <- spec_mean_speed action duration ;;
   t1 <- py_mul (VInt 18) mean_speed ;;
   t2 <- py_add t1 (VFloat 1.79) ;;
   t3 <- py_mul t2 weight ;;
   t4 <- py_div t3 (VInt 1000) ;;
   minutes <- py_mul duration (VInt 60) ;;
   py_mul t4 minutes)%res.

(** [length_pool * count_pool / 1000 / duration] *)
Definition spec_Swimming_mean_speed (length_pool count_pool duration : value)
    : result value :=
  (m <- py_mul length_pool count_pool ;;
   km <- py_div m (VInt 1000) ;;
   py_div km duration)%res.

(** ** The text of a number *)

(** Recognizes, least significant digit first, groups of three digits
    separated by commas, the last group of one to three digits. *)
Fixpoint grouped_rev (l : list ascii) : bool :=
  match l with
  | [] => false
  | [a] => is_digit a
  | [a; b] => is_digit a && is_digit b
  | [a; b; c] => is_digit a && is_digit b && is_digit c
  | a :: b :: c :: s :: rest =>
      is_digit a && is_digit b && is_digit c && Ascii.eqb s comma && grouped_rev rest
  end.

(** Recognizes the text of a number with exactly three decimals: an
    optional minus sign; the integer part, one digit at least, without any
    separator, or with [grouping] in groups of three digits separated by
    commas; a period; three digits. *)
Definition is_three_decimals (grouping : bool) (s : string) : bool :=
  let l := list_ascii_of_string s in
  let body :=
    match l with
    | c :: t => if Ascii.eqb c "-" then t else l
    | [] => []
    end in
  match rev body with
  | f3 :: f2 :: f1 :: p :: int_rev =>
      is_digit f1 && is_digit f2 && is_digit f3 && Ascii.eqb p "." &&
      (if grouping then grouped_rev int_rev
       else negb (Nat.eqb (length int_rev) 0) && forallb is_digit int_rev)
  | _ => false
  end.

Definition digit_or_comma (c : ascii) : bool := is_digit c || Ascii.eqb c comma.

Definition digit_value (c : ascii) : Z := Z.of_nat (nat_of_ascii c) - 48.

(** The number written by a list of characters, least significant digit
    first; characters other than digits are skipped. *)
Fixpoint digits_value_rev (l : list ascii) : Z :=
  match l with
  | [] => 0
  | c :: t =>
      if is_digit c then (digit_value c + 10 * digits_value_rev t)%Z
      else digits_value_rev t
  end.

(** The number of thousandths written by the text of a number with three
    decimals, its sign apart. *)
Definition thousandths (s : string) : Z :=
  digits_value_rev (rev (list_ascii_of_string s)).

(** The float is a zero or a finite number, not an infinity and not a
    NaN. *)
Definition is_finite (f : float) : bool :=
  match Prim2SF f with
  | S754_zero _ | S754_finite _ _ _ => true
  | _ => false
  end.

(** The exact number of thousandths of the magnitude of a float, zero for
    the floats that are no numbers. *)
Definition exact_thousandths (f : float) : Q :=
  match Prim2SF f with
  | S754_finite _ m e => (magnitude m e * 1000)%Q
  | _ => 0%Q
  end.

(** The message as the specification words it: each of the four numbers
    with three decimals and thousands separators. *)
Definition spec_get_message (self : InfoMessage.t) : result string :=
  (d <- py_format true (InfoMessage.duration self) ;;
   s <- py_format true (InfoMessage.distance self) ;;
   v <- py_format true (InfoMessage.speed self) ;;
   c <- py_format true (InfoMessage.calories self) ;;
   OK ("Тип тренировки: " +:+ InfoMessage.training_type self +:+ "; "
       +:+ "Длительность: " +:+ d +:+ " ч.; "
       +:+ "Дистанция: " +:+ s +:+ " км; "
       +:+ "Ср. скорость: " +:+ v +:+ " км/ч; "
       +:+ "Потрачено ккал: " +:+ c +:+ "."))%res.

(** ** The packages accepted by [main.py] *)

(** A recognized tag, a list of numbers of the length of the training, and
    the record that the constructor builds from it: the height of a walker
    is stored when its division by 100 returns. *)
Inductive accepted : string -> list value -> Main.object -> Prop :=
| accepted_SWM (a d w l c : value) :
    Forall is_number [a; d; w; l; c] ->
    accepted "SWM" [a; d; w; l; c]
      (Main.Build Swimming a d w (VFloat 0) (VFloat 0) (SwimmingAttrs l c))
| accepted_RUN (a d w : value) :
    Forall is_number [a; d; w] ->
    accepted "RUN" [a; d; w]
      (Main.Build Running a d w (VFloat 0) (VFloat 0) NoAttrs)
| accepted_WLK (a d w h x : value) :
    Forall is_number [a; d; w; h] ->
    py_div h CM_IN_METER = OK x ->
    accepted "WLK" [a; d; w; h]
      (Main.Build SportsWalking a d w (VFloat 0) (VFloat 0) (WalkingAttrs x)).

(** * Properties *)

(** ** Arithmetic on floats *)

Lemma positive_float_nonzero (d : float) :
  (0 <? d)%float = true -> (d =? 0)%float = false.
Proof.
  rewrite FloatAxioms.ltb_spec, FloatAxioms.eqb_spec.
  change (Prim2SF 0) with (S754_zero false).
  destruct (Prim2SF d) as [[]|[]| |[] m e]; cbn; congruence.
Qed.

Lemma py_mul_floats (x y : float) :
  py_mul (VFloat x) (VFloat y) = OK (VFloat (x * y)).
Proof. reflexivity. Qed.

Lemma py_add_floats (x y : float) :
  py_add (VFloat x) (VFloat y) = OK (VFloat (x + y)).
Proof. reflexivity. Qed.

Lemma py_mul_int_float (n : Z) (fn y : float) :
  float_of_int n = OK fn -> py_mul (VInt n) (VFloat y) = OK (VFloat (fn * y)).
Proof. intros H. cbn. now rewrite H. Qed.

Lemma py_mul_float_int (x : float) (n : Z) (fn : float) :
  float_of_int n = OK fn -> py_mul (VFloat x) (VInt n) = OK (VFloat (x * fn)).
Proof. intros H. cbn. now rewrite H. Qed.

Lemma py_div_floats (x d : float) :
  (d =? 0)%float = false -> py_div (VFloat x) (VFloat d) = OK (VFloat (x / d)).
Proof. intros H. cbn. now rewrite H. Qed.

Lemma py_div_float_int (x : float) (n : Z) (fn : float) :
  n <> 0%Z -> float_of_int n = OK fn ->
  py_div (VFloat x) (VInt n) = OK (VFloat (x / fn)).
Proof.
  intros Hn H. cbn [py_div as_float rbind].
  destruct (Z.eqb_spec n 0); [contradiction|]. now rewrite H.
Qed.

Lemma float_of_int_18 : float_of_int 18 = OK 18%float.
Proof. reflexivity. Qed.
Lemma float_of_int_60 : float_of_int 60 = OK 60%float.
Proof. reflexivity. Qed.
Lemma float_of_int_1000 : float_of_int 1000 = OK 1000%float.
Proof. reflexivity. Qed.
Lemma float_of_int_100 : float_of_int 100 = OK 100%float.
Proof. reflexivity. Qed.
Lemma float_of_int_2 : float_of_int 2 = OK 2%float.
Proof. reflexivity. Qed.

Lemma py_div_1000 (x : float) :
  py_div (VFloat x) (VInt 1000) = OK (VFloat (x / 1000)).
Proof. apply py_div_float_int; [discriminate | exact float_of_int_1000]. Qed.

Lemma py_div_100 (x : float) :
  py_div (VFloat x) (VInt 100) = OK (VFloat (x / 100)).
Proof. apply py_div_float_int; [discriminate | exact float_of_int_100]. Qed.

Lemma py_mul_18 (x : float) :
  py_mul (VInt 18) (VFloat x) = OK (VFloat (18 * x)).
Proof. apply py_mul_int_float, float_of_int_18. Qed.

Lemma py_mul_60 (x : float) :
  py_mul (VFloat x) (VInt 60) = OK (VFloat (x * 60)).
Proof. apply py_mul_float_int, float_of_int_60. Qed.

Lemma py_mul_2 (x : float) :
  py_mul (VFloat x) (VInt 2) = OK (VFloat (x * 2)).
Proof. apply py_mul_float_int, float_of_int_2. Qed.

(** Runs a method on a record whose attributes are known: unfolds the
    methods and the monad, and leaves the arithmetic as written. *)
Ltac run_method :=
  cbv [Main.get_spent_calories Main.Running_get_spent_calories
       Main.SportsWalking_get_spent_calories Main.Swimming_get_spent_calories
       Main.get_mean_speed Main.Training_get_mean_speed
       Main.Swimming_get_mean_speed Main.get_distance Main.show_training_info
       Main.bind Main.ret Main.lift Main.attr Main.height Main.length_pool
       Main.count_pool Main.set_spent_calories Main.set_mean_speed_km_h
       Main.class_of Main.action Main.duration Main.weight Main.own
       Main.spent_calories Main.mean_speed_km_h
       LEN_STEP fst snd rbind
       spec_distance spec_mean_speed spec_Running_calories
       spec_Swimming_mean_speed
       M_IN_KM CM_IN_METER
       CALORIES_MEAN_SPEED_MULTIPLIER CALORIES_MEAN_SPEED_SHIFT
       CALORIES_WEIGHT_FACTOR_1 CALORIES_WEIGHT_FACTOR_2 M_TO_SEC_CONVERTER
       SPEED_SWIM_SHIFT CALORIES_SPEED_SWIM_MULTIPLIER MIN_IN_HOUR].

Ltac run_step :=
  first [ rewrite py_mul_floats
        | rewrite py_add_floats
        | rewrite py_div_1000
        | rewrite py_mul_18
        | rewrite py_mul_60
        | rewrite py_mul_2
        | rewrite py_div_floats by assumption
        | erewrite py_mul_int_float by eassumption
        | erewrite py_mul_float_int by eassumption ].

Ltac run_floats := repeat (run_method; run_step); run_method.

Ltac case_results :=
  repeat (match goal with
    | |- context [match ?r with OK _ => _ | Raise _ => _ end] =>
        destruct r
    | |- context [match ?a with NoAttrs => _ | _ => _ end] =>
        destruct a
    end;
    cbn [fst snd Main.class_of Main.action Main.duration Main.weight Main.own
       Main.spent_calories Main.mean_speed_km_h]).

(** ** The formulas of [Running] *)

(** C1, as stated, fails: a valid running record whose action count is too
    large to convert to a float has no distance and no calories;
    [get_distance] raises [OverflowError]. *)
Lemma Running_action_too_large :
  valid (Main.Build Running (VInt (10 ^ 309)) (VFloat 1) (VFloat 75)
           (VFloat 0) (VFloat 0) NoAttrs) /\
  fst (Main.get_distance
         (Main.Build Running (VInt (10 ^ 309)) (VFloat 1) (VFloat 75)
            (VFloat 0) (VFloat 0) NoAttrs)) = Raise OverflowError /\
  fst (Main.get_spent_calories
         (Main.Build Running (VInt (10 ^ 309)) (VFloat 1) (VFloat 75)
            (VFloat 0) (VFloat 0) NoAttrs)) = Raise OverflowError.
Proof.
  split; [apply valid_Running; [lia | reflexivity | reflexivity]|].
  split; vm_compute; reflexivity.
Qed.



(** ** What the methods write *)

Section Frame.

Variable R : Main.object -> Main.object -> Prop.
Hypothesis R_refl : forall o, R o o.
Hypothesis R_trans : forall o1 o2 o3, R o1 o2 -> R o2 o3 -> R o1 o3.

Lemma preserves_ret {A : Type} (a : A) : preserves R (Main.ret a).
Proof. intros self. apply R_refl. Qed.

Lemma preserves_lift {A : Type} (r : result A) : preserves R (Main.lift r).
Proof. intros self. apply R_refl. Qed.

Lemma preserves_attr {A : Type} (f : Main.object -> A) :
  preserves R (Main.attr f).
Proof. intros self. apply R_refl. Qed.

Lemma preserves_bind {A B : Type} (m : Main.M A) (k : A -> Main.M B) :
  preserves R m -> (forall a, preserves R (k a)) -> preserves R (Main.bind m k).
Proof.
  intros Hm Hk self. unfold Main.bind.
  specialize (Hm self). destruct (m self) as [[a|e] self']; cbn in *.
  - eapply R_trans; [exact Hm | apply Hk].
  - exact Hm.
Qed.

Lemma preserves_own_attr :
  preserves R Main.height /\ preserves R Main.length_pool /\
  preserves R Main.count_pool.
Proof.
  repeat split; intros self;
    unfold Main.height, Main.length_pool, Main.count_pool;
    destruct (Main.own self); apply R_refl.
Qed.

End Frame.

Lemma same_inputs_refl o : same_inputs o o.
Proof. repeat split. Qed.

Lemma same_inputs_trans o1 o2 o3 :
  same_inputs o1 o2 -> same_inputs o2 o3 -> same_inputs o1 o3.
Proof.
  unfold same_inputs. intros (?&?&?&?&?) (?&?&?&?&?).
  repeat split; congruence.
Qed.

Lemma same_but_speed_refl o : same_but_speed o o.
Proof. repeat split. Qed.

Lemma same_but_speed_trans o1 o2 o3 :
  same_but_speed o1 o2 -> same_but_speed o2 o3 -> same_but_speed o1 o3.
Proof.
  unfold same_but_speed. intros [H1 E1] [H2 E2].
  split; [eapply same_inputs_trans; eassumption | congruence].
Qed.

Lemma same_but_speed_inputs o o' : same_but_speed o o' -> same_inputs o o'.
Proof. intros [H _]. exact H. Qed.

(** Splits a method into its steps; the reads and the arithmetic preserve
    any reflexive relation. *)
Ltac frame_steps Hrefl Htrans :=
  repeat first
    [ apply (preserves_bind _ Htrans); [|intros ?]
    | apply (preserves_ret _ Hrefl)
    | apply (preserves_lift _ Hrefl)
    | apply (preserves_attr _ Hrefl)
    | apply (proj1 (preserves_own_attr _ Hrefl))
    | apply (proj1 (proj2 (preserves_own_attr _ Hrefl)))
    | apply (proj2 (proj2 (preserves_own_attr _ Hrefl))) ].

Lemma get_distance_pure : preserves eq Main.get_distance.
Proof.
  unfold Main.get_distance.
  frame_steps (@eq_refl Main.object) (@eq_trans Main.object).
Qed.

Lemma set_mean_speed_km_h_frame v :
  preserves same_but_speed (Main.set_mean_speed_km_h v).
Proof. intros self. repeat split. Qed.

Lemma set_spent_calories_frame v :
  preserves same_inputs (Main.set_spent_calories v).
Proof. intros self. repeat split. Qed.

Lemma preserves_weaken {A : Type} (R R' : Main.object -> Main.object -> Prop)
    (m : Main.M A) :
  (forall o o', R o o' -> R' o o') -> preserves R m -> preserves R' m.
Proof. intros HR Hm self. apply HR, Hm. Qed.

Lemma get_distance_frame : preserves same_but_speed Main.get_distance.
Proof.
  apply (preserves_weaken eq); [|exact get_distance_pure].
  intros o o' <-. apply same_but_speed_refl.
Qed.

Lemma get_mean_speed_frame : preserves same_but_speed Main.get_mean_speed.
Proof.
  assert (HT : preserves same_but_speed Main.Training_get_mean_speed).
  { unfold Main.Training_get_mean_speed.
    frame_steps same_but_speed_refl same_but_speed_trans;
      first [apply get_distance_frame | apply set_mean_speed_km_h_frame]. }
  assert (HS : preserves same_but_speed Main.Swimming_get_mean_speed).
  { unfold Main.Swimming_get_mean_speed.
    frame_steps same_but_speed_refl same_but_speed_trans;
      apply set_mean_speed_km_h_frame. }
  intros self. unfold Main.get_mean_speed.
  destruct (Main.class_of self); first [apply HT | apply HS].
Qed.

Lemma get_spent_calories_frame : preserves same_inputs Main.get_spent_calories.
Proof.
  pose proof (preserves_weaken same_but_speed same_inputs Main.get_mean_speed
                same_but_speed_inputs get_mean_speed_frame) as Hs.
  intros self. unfold Main.get_spent_calories.
  destruct (Main.class_of self);
    [ apply same_inputs_refl
    | revert self; unfold Main.Running_get_spent_calories
    | revert self; unfold Main.SportsWalking_get_spent_calories
    | revert self; unfold Main.Swimming_get_spent_calories ];
    frame_steps same_inputs_refl same_inputs_trans;
    first [apply Hs | apply set_spent_calories_frame].
Qed.

Lemma show_training_info_frame : preserves same_inputs Main.show_training_info.
Proof.
  unfold Main.show_training_info.
  frame_steps same_inputs_refl same_inputs_trans.
  - apply (preserves_weaken same_but_speed); [|exact get_mean_speed_frame].
    exact same_but_speed_inputs.
  - apply get_spent_calories_frame.
Qed.

Ltac case_steps :=
  repeat match goal with
    | |- context [match ?r with OK _ => _ | Raise _ => _ end] =>
        destruct r; cbn [fst snd]
    | |- context [match ?a with NoAttrs => _ | _ => _ end] =>
        destruct a; cbn [fst snd]
    end.

Lemma get_mean_speed_stores (self : Main.object) (v : value) :
  fst (Main.get_mean_speed self) = OK v ->
  Main.mean_speed_km_h (snd (Main.get_mean_speed self)) = v.
Proof.
  unfold Main.get_mean_speed.
  destruct (Main.class_of self);
    cbv [Main.Training_get_mean_speed Main.Swimming_get_mean_speed
         Main.get_distance Main.bind Main.lift Main.attr Main.length_pool
         Main.count_pool Main.set_mean_speed_km_h];
    case_steps; cbn; congruence.
Qed.

Lemma get_spent_calories_stores (self : Main.object) (c : value) :
  fst (Main.get_spent_calories self) = OK c ->
  Main.spent_calories (snd (Main.get_spent_calories self)) = c.
Proof.
  unfold Main.get_spent_calories.
  destruct (Main.class_of self);
    cbv [Main.Running_get_spent_calories Main.SportsWalking_get_spent_calories
         Main.Swimming_get_spent_calories Main.bind Main.lift Main.attr
         Main.height Main.set_spent_calories];
    try (destruct (Main.get_mean_speed self) as [[v|e] self']; cbn [fst snd]);
    case_steps; cbn; congruence.
Qed.

(** ** The methods of [main.py] return what those of [homework.py] return *)

Ltac unfold_methods :=
  cbv [Main.get_spent_calories Main.Running_get_spent_calories
       Main.SportsWalking_get_spent_calories Main.Swimming_get_spent_calories
       Main.get_mean_speed Main.Training_get_mean_speed
       Main.Swimming_get_mean_speed Main.get_distance Main.show_training_info
       Main.bind Main.ret Main.lift Main.attr Main.height Main.length_pool
       Main.count_pool Main.set_spent_calories Main.set_mean_speed_km_h
       Homework.get_spent_calories Homework.Running_get_spent_calories
       Homework.SportsWalking_get_spent_calories
       Homework.Swimming_get_spent_calories Homework.get_mean_speed
       Homework.Training_get_mean_speed Homework.Swimming_get_mean_speed
       Homework.get_distance Homework.show_training_info Homework.height
       Homework.length_pool Homework.count_pool Homework.attribute rbind
       forget];
  cbn [Main.class_of Main.action Main.duration Main.weight Main.own
       Main.spent_calories Main.mean_speed_km_h Homework.class_of
       Homework.action Homework.duration Homework.weight Homework.own].

Lemma forget_same_inputs (o o' : Main.object) :
  same_inputs o o' -> forget o' = forget o.
Proof.
  intros (H1 & H2 & H3 & H4 & H5). unfold forget. congruence.
Qed.

Lemma get_distance_agrees (self : Main.object) :
  Main.get_distance self = (Homework.get_distance (forget self), self).
Proof.
  unfold_methods. case_results; reflexivity.
Qed.

Lemma get_mean_speed_agrees (self : Main.object) :
  fst (Main.get_mean_speed self) = Homework.get_mean_speed (forget self).
Proof.
  destruct self as [c a d w sc ms [|h|l n]]; destruct c;
    unfold_methods; case_results; reflexivity.
Qed.

Lemma get_mean_speed_run (self : Main.object) :
  exists self',
    Main.get_mean_speed self = (Homework.get_mean_speed (forget self), self') /\
    forget self' = forget self.
Proof.
  exists (snd (Main.get_mean_speed self)). split.
  - rewrite <- get_mean_speed_agrees. apply surjective_pairing.
  - apply forget_same_inputs, same_but_speed_inputs, get_mean_speed_frame.
Qed.

Lemma get_spent_calories_agrees (self : Main.object) :
  Main.class_of self <> Training ->
  fst (Main.get_spent_calories self) = Homework.get_spent_calories (forget self).
Proof.
  intros Hc.
  destruct (get_mean_speed_run self) as (s1 & Hrun & Hs1).
  unfold Main.get_spent_calories, Homework.get_spent_calories.
  change (Homework.class_of (forget self)) with (Main.class_of self).
  destruct (Main.class_of self); [contradiction|..];
    cbv [Main.Running_get_spent_calories Main.SportsWalking_get_spent_calories
         Main.Swimming_get_spent_calories Main.bind
         Homework.Running_get_spent_calories
         Homework.SportsWalking_get_spent_calories
         Homework.Swimming_get_spent_calories rbind];
    rewrite Hrun; destruct (Homework.get_mean_speed (forget self)) as [v|e];
    try reflexivity;
    destruct self as [c a d w sc ms o], s1 as [c1 a1 d1 w1 sc1 ms1 o1];
    injection Hs1 as -> -> -> -> ->;
    destruct o as [|h|l n];
    unfold_methods; case_results; reflexivity.
Qed.

Lemma show_training_info_agrees (self : Main.object) :
  Main.class_of self <> Training ->
  fst (Main.show_training_info self) = Homework.show_training_info (forget self).
Proof.
  intros Hc.
  destruct (get_mean_speed_run self) as (s1 & Hrun & Hs1).
  assert (Hc1 : Main.class_of s1 <> Training)
    by (rewrite (f_equal Homework.class_of Hs1 : Main.class_of s1 = _); exact Hc).
  pose proof (get_spent_calories_agrees s1 Hc1) as Hcal. rewrite Hs1 in Hcal.
  cbv [Main.show_training_info Homework.show_training_info Main.bind rbind
       Main.attr Main.ret].
  rewrite get_distance_agrees.
  destruct (Homework.get_distance (forget self)) as [dist|e]; [|reflexivity].
  rewrite Hrun.
  destruct (Homework.get_mean_speed (forget self)) as [v|e]; [|reflexivity].
  rewrite <- Hcal.
  destruct (Main.get_spent_calories s1) as [[cal|e] s2]; reflexivity.
Qed.

(** ** What the methods store *)

(** [get_mean_speed] computes the mean speed that the method of
    [homework.py], which writes nothing, computes on the same attributes,
    and stores it; when the computation raises, nothing is written. *)
Lemma get_mean_speed_computes (self : Main.object) :
  Main.get_mean_speed self =
    match Homework.get_mean_speed (forget self) with
    | OK v => (OK v, with_speed v self)
    | Raise e => (Raise e, self)
    end.
Proof.
  destruct self as [c a d w sc ms [|h|l n]]; destruct c;
    unfold_methods; unfold with_speed; case_results; reflexivity.
Qed.

Lemma get_spent_calories_computes (self : Main.object) :
  Main.class_of self <> Training ->
  Main.get_spent_calories self =
    match Homework.get_mean_speed (forget self) with
    | Raise e => (Raise e, self)
    | OK v =>
        match Homework.get_spent_calories (forget self) with
        | OK c => (OK c, with_calories c (with_speed v self))
        | Raise e => (Raise e, with_speed v self)
        end
    end.
Proof.
  intros Hc.
  unfold Main.get_spent_calories, Homework.get_spent_calories.
  change (Homework.class_of (forget self)) with (Main.class_of self).
  destruct (Main.class_of self) eqn:Ec; [contradiction|..];
    cbv [Main.Running_get_spent_calories Main.SportsWalking_get_spent_calories
         Main.Swimming_get_spent_calories Main.bind
         Homework.Running_get_spent_calories
         Homework.SportsWalking_get_spent_calories
         Homework.Swimming_get_spent_calories rbind];
    rewrite get_mean_speed_computes;
    destruct (Homework.get_mean_speed (forget self)) as [v|e];
    try reflexivity;
    destruct self as [c a d w sc ms [|h|l n]];
    cbv [Main.lift Main.attr Main.height Main.set_spent_calories
         Homework.height Homework.attribute with_speed with_calories forget];
    cbn [Main.class_of Main.action Main.duration Main.weight Main.own
         Main.spent_calories Main.mean_speed_km_h Homework.class_of
         Homework.action Homework.duration Homework.weight Homework.own];
    case_results; reflexivity.
Qed.

(** C8, as stated, fails: on the record read from the package
    [("RUN", [15000, 1, 75])], [get_mean_speed] changes the attribute
    [mean_speed_km_h] from 0.0 to 9.75 and [get_spent_calories] changes
    [spent_calories] from 0.0 to 797.805. *)
Lemma methods_write_self :
  exists self : Main.object,
    Main.read_package "RUN" [VInt 15000; VInt 1; VInt 75] = OK self /\
    Main.mean_speed_km_h self = VFloat 0 /\
    Main.spent_calories self = VFloat 0 /\
    Main.mean_speed_km_h (snd (Main.get_mean_speed self)) = VFloat 9.75 /\
    Main.spent_calories (snd (Main.get_spent_calories self)) =
      VFloat 797.805 /\
    (9.75 =? 0)%float = false /\ (797.805 =? 0)%float = false.
Proof.
  eexists. split; [vm_compute; reflexivity|].
  repeat split; vm_compute; reflexivity.
Qed.

(** C8, amended. On every object, of any class and with any attributes:
    [get_distance] writes nothing; [get_mean_speed] writes nothing but
    [mean_speed_km_h]; [get_spent_calories] and [show_training_info] write
    nothing but [mean_speed_km_h] and [spent_calories], so the attributes
    read from the package (class, action, duration, weight, height, pool
    length, lap count) are unchanged.  What is written is what is computed:
    [get_mean_speed] returns the mean speed computed from the attributes
    (the value that the method of [homework.py], which stores nothing,
    returns) and leaves it in [mean_speed_km_h], the rest of the record as
    it was; when the computation raises, the record is as it was.
    [get_spent_calories] of a subclass leaves the mean speed in
    [mean_speed_km_h] and, when it returns, the calories it returns in
    [spent_calories]. *)
Theorem methods_frame (self : Main.object) :
  snd (Main.get_distance self) = self /\
  same_but_speed self (snd (Main.get_mean_speed self)) /\
  same_inputs self (snd (Main.get_spent_calories self)) /\
  same_inputs self (snd (Main.show_training_info self)) /\
  (forall v, fst (Main.get_mean_speed self) = OK v ->
             Main.mean_speed_km_h (snd (Main.get_mean_speed self)) = v) /\
  (forall c, fst (Main.get_spent_calories self) = OK c ->
             Main.spent_calories (snd (Main.get_spent_calories self)) = c) /\
  Main.get_mean_speed self =
    match Homework.get_mean_speed (forget self) with
    | OK v => (OK v, with_speed v self)
    | Raise e => (Raise e, self)
    end /\
  (Main.class_of self <> Training ->
   Main.get_spent_calories self =
     match Homework.get_mean_speed (forget self) with
     | Raise e => (Raise e, self)
     | OK v =>
         match Homework.get_spent_calories (forget self) with
         | OK c => (OK c, with_calories c (with_speed v self))
         | Raise e => (Raise e, with_speed v self)
         end
     end).
Proof.
  split; [symmetry; apply get_distance_pure|].
  split; [apply get_mean_speed_frame|].
  split; [apply get_spent_calories_frame|].
  split; [apply show_training_info_frame|].
  split; [apply get_mean_speed_stores|].
  split; [apply get_spent_calories_stores|].
  split; [apply get_mean_speed_computes | apply get_spent_calories_computes].
Qed.

Lemma methods_frame_witness :
  Main.get_spent_calories
    (Main.Build Running (VInt 15000) (VInt 1) (VInt 75) (VFloat 0)
       (VFloat 0) NoAttrs) =
    (OK (VFloat 797.805),
     Main.Build Running (VInt 15000) (VInt 1) (VInt 75) (VFloat 797.805)
       (VFloat 9.75) NoAttrs).
Proof.
  rewrite (proj2 (proj2 (proj2 (proj2 (proj2 (proj2 (proj2
             (methods_frame
                (Main.Build Running (VInt 15000) (VInt 1) (VInt 75)
                   (VFloat 0) (VFloat 0) NoAttrs)))))))))
    by discriminate.
  vm_compute. reflexivity.
Defined.

(** ** The mean speed of [Swimming] *)

(** C2, as stated, fails: a valid swimming record whose number of laps is
    too large to convert to a float has no mean speed; [get_mean_speed]
    raises [OverflowError]. *)
Lemma Swimming_laps_too_large :
  valid (Main.Build Swimming (VInt 720) (VFloat 1) (VFloat 80) (VFloat 0)
           (VFloat 0) (SwimmingAttrs (VFloat 25) (VInt (10 ^ 400)))) /\
  fst (Main.get_mean_speed
         (Main.Build Swimming (VInt 720) (VFloat 1) (VFloat 80) (VFloat 0)
            (VFloat 0) (SwimmingAttrs (VFloat 25) (VInt (10 ^ 400))))) =
    Raise OverflowError.
Proof.
  split; [apply valid_Swimming; first [lia | reflexivity]|].
  vm_compute. reflexivity.
Qed.



(** ** Arithmetic on numbers raises nothing but its two exceptions *)

Lemma positive_number (v : value) :
  positive v -> is_number v /\ is_zero_value v = false.
Proof.
  destruct v as [|n|f]; cbn; [contradiction| |].
  - intros H. split; [exact I | lia].
  - intros H. split; [exact I | now apply positive_float_nonzero].
Qed.

Lemma float_of_int_outcome (n : Z) :
  only_overflow (fun _ => True) (float_of_int n).
Proof.
  unfold float_of_int.
  destruct (binary_normalize prec emax n 0 false); cbn; auto.
Qed.

Lemma int_true_div_outcome (a b : Z) :
  b <> 0%Z -> only_overflow (fun _ => True) (int_true_div a b).
Proof.
  intros Hb. unfold int_true_div.
  destruct (Z.eqb_spec b 0); [contradiction|].
  match goal with
  | |- context [binary_normalize ?p ?e ?m ?x ?z] =>
      destruct (binary_normalize p e m x z)
  end; cbn; auto.
Qed.

Lemma as_float_outcome (v : value) :
  is_number v -> only_overflow (fun _ => True) (as_float v).
Proof.
  destruct v; cbn; [contradiction | intros _; apply float_of_int_outcome | auto].
Qed.

Lemma only_overflow_bind {A B : Type} (Q : A -> Prop) (Q' : B -> Prop)
    (r : result A) (k : A -> result B) :
  only_overflow Q r -> (forall a, Q a -> only_overflow Q' (k a)) ->
  only_overflow Q' (rbind r k).
Proof. destruct r; cbn; auto. Qed.

Lemma only_overflow_weaken {A : Type} (Q Q' : A -> Prop) (r : result A) :
  (forall a, Q a -> Q' a) -> only_overflow Q r -> only_overflow Q' r.
Proof. destruct r; cbn; auto. Qed.

Lemma float_operation_outcome (a b : value) (op : float -> float -> float) :
  is_number a -> is_number b ->
  only_overflow is_number
    (x <- as_float a ;; y <- as_float b ;; OK (VFloat (op x y)))%res.
Proof.
  intros Ha Hb.
  apply (only_overflow_bind (fun _ => True)); [now apply as_float_outcome|].
  intros x _.
  apply (only_overflow_bind (fun _ => True)); [now apply as_float_outcome|].
  intros y _. exact I.
Qed.

Lemma py_mul_outcome (a b : value) :
  is_number a -> is_number b -> only_overflow is_number (py_mul a b).
Proof.
  intros Ha Hb. destruct a, b; try contradiction; try exact I;
    apply (float_operation_outcome _ _ PrimFloat.mul); exact I.
Qed.

Lemma py_add_outcome (a b : value) :
  is_number a -> is_number b -> only_overflow is_number (py_add a b).
Proof.
  intros Ha Hb. destruct a, b; try contradiction; try exact I;
    apply (float_operation_outcome _ _ PrimFloat.add); exact I.
Qed.

Lemma py_div_outcome (a b : value) :
  is_number a -> is_number b -> is_zero_value b = false ->
  only_overflow is_number (py_div a b).
Proof.
  intros Ha Hb Hz. destruct a as [|x|x], b as [|y|y]; try contradiction;
    cbn in Hz; cbn [py_div].
  - apply (only_overflow_bind (fun _ => True)).
    + apply int_true_div_outcome. now apply Z.eqb_neq.
    + intros q _. exact I.
  - apply (only_overflow_bind (fun _ => True));
      [apply float_of_int_outcome|].
    intros fx _. rewrite Hz. exact I.
  - cbn [as_float rbind]. rewrite Hz.
    apply (only_overflow_bind (fun _ => True));
      [apply float_of_int_outcome|].
    intros fy _. exact I.
  - cbn [as_float rbind]. rewrite Hz. exact I.
Qed.

Lemma py_div_by_zero (a b : value) :
  is_number a -> is_zero_value b = true ->
  raises_arithmetic_error (py_div a b).
Proof.
  intros Ha Hz. destruct a as [|x|x], b as [|y|y]; try contradiction;
    try discriminate; cbn in Hz; cbn [py_div as_float rbind].
  - unfold int_true_div. rewrite Hz. left. reflexivity.
  - pose proof (float_of_int_outcome x) as Hx.
    destruct (float_of_int x); cbn in *.
    + rewrite Hz. left. reflexivity.
    + right. exact Hx.
  - rewrite Hz. left. reflexivity.
  - rewrite Hz. left. reflexivity.
Qed.

Lemma py_pow_2_outcome (a : value) :
  is_number a -> only_overflow is_number (py_pow_2 a).
Proof.
  destruct a as [|x|x]; [contradiction | intros _; exact I |].
  intros _. unfold py_pow_2, float_pow_2. destruct (is_infinity x); [exact I|].
  destruct (is_infinity (x * x)); [reflexivity | exact I].
Qed.

Lemma py_format_outcome (grouping : bool) (v : value) :
  is_number v -> only_overflow (fun _ => True) (py_format grouping v).
Proof.
  destruct v; cbn; [contradiction | | auto]. intros _.
  apply (only_overflow_bind (fun _ => True)); [apply float_of_int_outcome|].
  intros f _. exact I.
Qed.

Lemma raises_bind {A B : Type} (r : result A) (k : A -> result B) :
  raises_arithmetic_error r -> raises_arithmetic_error (rbind r k).
Proof. destruct r; cbn; [contradiction | auto]. Qed.

Lemma raises_after {A B : Type} (Q : A -> Prop) (r : result A)
    (k : A -> result B) :
  only_overflow Q r -> (forall a, Q a -> raises_arithmetic_error (k a)) ->
  raises_arithmetic_error (rbind r k).
Proof.
  destruct r; cbn; auto. intros -> _. right. reflexivity.
Qed.

(** Splits a formula into its operations. *)
Ltac outcome_steps :=
  repeat first
    [ exact I
    | assumption
    | apply py_mul_outcome
    | apply py_add_outcome
    | apply py_pow_2_outcome
    | apply py_div_outcome
    | apply (only_overflow_bind is_number); [|intros ? ?] ].

Section NumericRecord.

Variable o : Homework.object.
Hypothesis Hnum : numeric o.

Lemma Homework_get_distance_outcome :
  only_overflow is_number (Homework.get_distance o).
Proof.
  destruct Hnum as (Ha & _). unfold Homework.get_distance.
  assert (is_number (LEN_STEP (Homework.class_of o)))
    by (destruct (Homework.class_of o); exact I).
  outcome_steps; reflexivity.
Qed.

Lemma Homework_get_mean_speed_outcome :
  is_zero_value (Homework.duration o) = false ->
  only_overflow is_number (Homework.get_mean_speed o).
Proof.
  intros Hz. pose proof Homework_get_distance_outcome as Hdist.
  destruct Hnum as (Ha & Hd & Hw & Hown).
  unfold Homework.get_mean_speed.
  destruct (Homework.class_of o), (Homework.own o) as [|h|l c] eqn:Ho;
    try contradiction.
  - unfold Homework.Training_get_mean_speed. outcome_steps.
  - unfold Homework.Training_get_mean_speed. outcome_steps.
  - destruct Hown as [Hl Hc].
    cbv [Homework.Swimming_get_mean_speed Homework.length_pool
         Homework.count_pool].
    rewrite Ho. cbn [Homework.attribute rbind].
    outcome_steps; reflexivity.
Qed.

Lemma Homework_get_mean_speed_zero :
  is_zero_value (Homework.duration o) = true ->
  raises_arithmetic_error (Homework.get_mean_speed o).
Proof.
  intros Hz. pose proof Homework_get_distance_outcome as Hdist.
  destruct Hnum as (Ha & Hd & Hw & Hown).
  unfold Homework.get_mean_speed.
  destruct (Homework.class_of o), (Homework.own o) as [|h|l c] eqn:Ho;
    try contradiction.
  - unfold Homework.Training_get_mean_speed.
    apply (raises_after is_number); [exact Hdist|].
    intros dist Hn. now apply py_div_by_zero.
  - unfold Homework.Training_get_mean_speed.
    apply (raises_after is_number); [exact Hdist|].
    intros dist Hn. now apply py_div_by_zero.
  - destruct Hown as [Hl Hc].
    cbv [Homework.Swimming_get_mean_speed Homework.length_pool
         Homework.count_pool].
    rewrite Ho. cbn [Homework.attribute rbind].
    apply (raises_after is_number); [now apply py_mul_outcome|].
    intros m Hm.
    apply (raises_after is_number);
      [apply py_div_outcome; [exact Hm | exact I | reflexivity]|].
    intros km Hkm. now apply py_div_by_zero.
Qed.

Lemma Homework_get_spent_calories_outcome :
  zero_divisor o = false ->
  only_overflow is_number (Homework.get_spent_calories o).
Proof.
  intros Hz. unfold zero_divisor in Hz. apply orb_false_elim in Hz as [Hzd Hzh].
  pose proof (Homework_get_mean_speed_outcome Hzd) as Hspeed.
  destruct Hnum as (Ha & Hd & Hw & Hown).
  unfold Homework.get_spent_calories.
  destruct (Homework.class_of o), (Homework.own o) as [|h|l c] eqn:Ho;
    try contradiction.
  - unfold Homework.Running_get_spent_calories. outcome_steps; reflexivity.
  - unfold Homework.SportsWalking_get_spent_calories.
    apply (only_overflow_bind is_number); [exact Hspeed|]. intros v Hv.
    apply (only_overflow_bind is_number); [outcome_steps|]. intros ms Hms.
    apply (only_overflow_bind is_number); [outcome_steps|]. intros t1 Ht1.
    apply (only_overflow_bind is_number); [outcome_steps|]. intros sq Hsq.
    unfold Homework.height. rewrite Ho. cbn [Homework.attribute rbind].
    outcome_steps.
  - unfold Homework.Swimming_get_spent_calories. outcome_steps.
Qed.

Lemma Homework_get_spent_calories_zero :
  zero_divisor o = true ->
  raises_arithmetic_error (Homework.get_spent_calories o).
Proof.
  intros Hz. unfold zero_divisor in Hz.
  destruct (is_zero_value (Homework.duration o)) eqn:Hzd.
  - pose proof (Homework_get_mean_speed_zero Hzd) as Hspeed.
    destruct Hnum as (Ha & Hd & Hw & Hown).
    unfold Homework.get_spent_calories.
    destruct (Homework.class_of o), (Homework.own o) as [|h|l c];
      try contradiction; now apply raises_bind.
  - cbn [orb] in Hz.
    pose proof (Homework_get_mean_speed_outcome Hzd) as Hspeed.
    destruct Hnum as (Ha & Hd & Hw & Hown).
    unfold Homework.get_spent_calories.
    destruct (Homework.class_of o), (Homework.own o) as [|h|l c] eqn:Ho;
      try contradiction; try discriminate.
    unfold Homework.SportsWalking_get_spent_calories.
    apply (raises_after is_number); [exact Hspeed|]. intros v Hv.
    apply (raises_after is_number); [outcome_steps|]. intros ms Hms.
    apply (raises_after is_number); [outcome_steps|]. intros t1 Ht1.
    apply (raises_after is_number); [outcome_steps|]. intros sq Hsq.
    unfold Homework.height. rewrite Ho. cbn [Homework.attribute rbind].
    apply raises_bind. now apply py_div_by_zero.
Qed.

Lemma Homework_show_training_info_outcome :
  zero_divisor o = false ->
  only_overflow
    (fun info =>
       is_number (InfoMessage.duration info) /\
       is_number (InfoMessage.distance info) /\
       is_number (InfoMessage.speed info) /\
       is_number (InfoMessage.calories info))
    (Homework.show_training_info o).
Proof.
  intros Hz. pose proof (Homework_get_spent_calories_outcome Hz) as Hcal.
  unfold zero_divisor in Hz. apply orb_false_elim in Hz as [Hzd Hzh].
  pose proof (Homework_get_mean_speed_outcome Hzd) as Hspeed.
  pose proof Homework_get_distance_outcome as Hdist.
  destruct Hnum as (Ha & Hd & Hw & Hown).
  unfold Homework.show_training_info.
  apply (only_overflow_bind is_number); [exact Hdist|]. intros dist Hn1.
  apply (only_overflow_bind is_number); [exact Hspeed|]. intros v Hn2.
  apply (only_overflow_bind is_number); [exact Hcal|]. intros c Hn3.
  cbn. auto.
Qed.

Lemma Homework_show_training_info_zero :
  zero_divisor o = true ->
  raises_arithmetic_error (Homework.show_training_info o).
Proof.
  intros Hz. pose proof (Homework_get_spent_calories_zero Hz) as Hcal.
  pose proof Homework_get_distance_outcome as Hdist.
  unfold Homework.show_training_info.
  apply (raises_after is_number); [exact Hdist|]. intros dist Hn1.
  destruct (is_zero_value (Homework.duration o)) eqn:Hzd.
  - apply raises_bind. now apply Homework_get_mean_speed_zero.
  - apply (raises_after is_number);
      [now apply Homework_get_mean_speed_outcome|].
    intros v Hv. now apply raises_bind.
Qed.

Lemma Homework_main_outcome :
  zero_divisor o = false ->
  only_overflow (fun _ => True) (Homework.main o).
Proof.
  intros Hz. unfold Homework.main.
  eapply only_overflow_bind;
    [exact (Homework_show_training_info_outcome Hz)|].
  intros info (H1 & H2 & H3 & H4). unfold InfoMessage.get_message.
  repeat (apply (only_overflow_bind (fun _ => True));
          [now apply py_format_outcome | intros ? _]).
  exact I.
Qed.

Lemma Homework_main_zero :
  zero_divisor o = true -> raises_arithmetic_error (Homework.main o).
Proof.
  intros Hz. unfold Homework.main. apply raises_bind.
  now apply Homework_show_training_info_zero.
Qed.

End NumericRecord.

(** ** What the formulas raise on a valid record *)

Lemma valid_numeric (self : Main.object) :
  valid self ->
  numeric (forget self) /\ is_zero_value (Main.duration self) = false /\
  Main.class_of self <> Training.
Proof.
  intros [a d w sc ms Ha Hd Hw
         |a d w height_cm h sc ms Ha Hd Hw Hh Hdiv
         |a d w l c sc ms Ha Hd Hw Hl Hc];
    apply positive_number in Hd as [Hd Hdz];
    apply positive_number in Hw as [Hw _];
    (split; [|split; [exact Hdz | discriminate]]);
    unfold numeric; cbn; repeat split; try assumption.
  - apply positive_number in Hh as [Hh _].
    pose proof (py_div_outcome height_cm CM_IN_METER Hh I eq_refl) as Hout.
    rewrite Hdiv in Hout. exact Hout.
  - now apply positive_number in Hl as [Hl _].
Qed.

Lemma valid_zero_divisor (self : Main.object) :
  valid self -> zero_divisor (forget self) = true ->
  exists h, Main.class_of self = SportsWalking /\
            Main.own self = WalkingAttrs h /\ is_zero_value h = true.
Proof.
  intros Hvalid. destruct (valid_numeric self Hvalid) as (_ & Hd & _).
  unfold zero_divisor. cbn [forget Homework.duration Homework.own].
  rewrite Hd. cbn [orb].
  destruct Hvalid; cbn; try discriminate.
  intros Hz. eexists. repeat split. exact Hz.
Qed.

(** C9, as stated, fails.  A walker whose height is the positive float
    [5e-324] centimetres satisfies the invariants; [read_package] stores
    its height in metres, [5e-324 / 100], which is [0.0], and
    [get_spent_calories] divides by it: [ZeroDivisionError].  A runner
    whose action count is [10 ** 309] satisfies them too, and its
    [get_distance] raises [OverflowError]. *)
Lemma walking_height_underflows :
  let self :=
    Main.Build SportsWalking (VInt 9000) (VInt 1) (VInt 75) (VFloat 0)
      (VFloat 0) (WalkingAttrs (VFloat 0)) in
  Main.read_package "WLK" [VInt 9000; VInt 1; VInt 75; VFloat 5e-324] =
    OK self /\
  valid self /\
  fst (Main.get_spent_calories self) = Raise ZeroDivisionError /\
  fst (Main.main self) = Raise ZeroDivisionError /\
  valid (Main.Build Running (VInt (10 ^ 309)) (VInt 1) (VInt 75)
           (VFloat 0) (VFloat 0) NoAttrs) /\
  fst (Main.get_distance
         (Main.Build Running (VInt (10 ^ 309)) (VInt 1) (VInt 75)
            (VFloat 0) (VFloat 0) NoAttrs)) = Raise OverflowError.
Proof.
  cbv zeta. split; [vm_compute; reflexivity|].
  split.
  { apply valid_SportsWalking with (height_cm := VFloat 5e-324);
      [lia | cbn; lia | cbn; lia | reflexivity | vm_compute; reflexivity]. }
  split; [vm_compute; reflexivity|].
  split; [vm_compute; reflexivity|].
  split; [apply valid_Running; cbn; lia|].
  vm_compute; reflexivity.
Qed.



(** ** The distance of [Swimming] *)




(** ** Reading a package in [main.py] *)

Lemma training_classes_lookup (tag : string) :
  Main.training_classes !! tag =
    if decide (tag = "SWM") then Some Swimming
    else if decide (tag = "RUN") then Some Running
    else if decide (tag = "WLK") then Some SportsWalking
    else None.
Proof.
  unfold Main.training_classes, Main.SWM, Main.RUN, Main.WLK.
  repeat case_decide; subst; simplify_map_eq; reflexivity.
Qed.

Lemma correct_list_length_lookup (tag : string) :
  Main.correct_list_length !! tag =
    if decide (tag = "SWM") then Some 5%nat
    else if decide (tag = "RUN") then Some 3%nat
    else if decide (tag = "WLK") then Some 4%nat
    else None.
Proof.
  unfold Main.correct_list_length, Main.SWM, Main.RUN, Main.WLK.
  repeat case_decide; subst; simplify_map_eq; reflexivity.
Qed.

Lemma existsb_is_None (vals : list value) :
  existsb is_None vals = true <-> In VNone vals.
Proof.
  rewrite existsb_exists. split.
  - intros [[|n|f] [Hin Hq]]; [exact Hin | discriminate | discriminate].
  - intros Hin. exists VNone. split; [exact Hin | reflexivity].
Qed.

(** The three steps of [read_package] on a recognized tag. *)
Lemma read_package_known (tag : string) (c : class) (n : nat)
    (vals : list value) :
  Main.training_classes !! tag = Some c ->
  Main.correct_list_length !! tag = Some n ->
  Main.read_package tag vals =
    if existsb is_None vals then Raise (Exception Main.BAD_DATA)
    else if (length vals =? n)%nat then Main.new c vals
    else Raise (Exception Main.BAD_DATA).
Proof.
  intros Hc Hn. unfold Main.read_package, Main.checking_correct_data, subscript.
  rewrite Hc, Hn.
  destruct (existsb is_None vals); [reflexivity|]. cbn.
  destruct (length vals =? n)%nat; reflexivity.
Qed.

(** The tag is looked up first. *)
Lemma read_package_not_found (tag : string) (vals : list value) :
  tag <> "SWM" -> tag <> "RUN" -> tag <> "WLK" ->
  Main.read_package tag vals = Raise (Exception Main.NOT_FOUND).
Proof.
  intros H1 H2 H3. unfold Main.read_package.
  rewrite training_classes_lookup.
  repeat case_decide; try contradiction. reflexivity.
Qed.

(** C4. Whatever the value list, [read_package] raises the exception with
    the message of the unknown training on every tag other than ["SWM"],
    ["RUN"] and ["WLK"]: no record is returned. *)
Theorem read_package_unknown_tag (tag : string) (vals : list value) :
  tag <> "SWM" -> tag <> "RUN" -> tag <> "WLK" ->
  Main.read_package tag vals = Raise (Exception "Неизвестная тренировка.").
Proof. exact (read_package_not_found tag vals). Qed.

Lemma read_package_unknown_tag_witness :
  Main.read_package "XYZ" [VInt 1; VInt 2; VInt 3] =
    Raise (Exception "Неизвестная тренировка.").
Proof.
  apply (read_package_unknown_tag "XYZ" [VInt 1; VInt 2; VInt 3]);
    discriminate.
Defined.

Lemma not_None_number (v : value) : v <> VNone -> is_number v.
Proof. destruct v; intros H; [congruence | exact I | exact I]. Qed.

Lemma no_None_numbers (vals : list value) :
  ~ In VNone vals -> Forall is_number vals.
Proof.
  induction vals as [|v vals IH]; intros Hn; constructor.
  - apply not_None_number. intros ->. apply Hn. left. reflexivity.
  - apply IH. intros Hin. apply Hn. right. exact Hin.
Qed.

Lemma length_3 {A : Type} (l : list A) :
  length l = 3%nat -> exists a b c, l = [a; b; c].
Proof.
  destruct l as [|a [|b [|c [|? ?]]]]; try discriminate. intros _. eauto.
Qed.

Lemma length_4 {A : Type} (l : list A) :
  length l = 4%nat -> exists a b c d, l = [a; b; c; d].
Proof.
  destruct l as [|a [|b [|c [|d [|? ?]]]]]; try discriminate. intros _.
  eauto 6.
Qed.

Lemma length_5 {A : Type} (l : list A) :
  length l = 5%nat -> exists a b c d e, l = [a; b; c; d; e].
Proof.
  destruct l as [|a [|b [|c [|d [|e [|? ?]]]]]]; try discriminate. intros _.
  eauto 7.
Qed.

Lemma read_package_bad_data (tag : string) (c : class) (n : nat)
    (vals : list value) :
  Main.training_classes !! tag = Some c ->
  Main.correct_list_length !! tag = Some n ->
  In VNone vals \/ length vals <> n ->
  Main.read_package tag vals = Raise (Exception "Некорректный пакет данных.").
Proof.
  intros Hc Hn Hbad. rewrite (read_package_known tag c n vals Hc Hn).
  destruct (existsb is_None vals) eqn:E; [reflexivity|].
  destruct Hbad as [Hin|Hlen].
  - apply existsb_is_None in Hin. congruence.
  - apply Nat.eqb_neq in Hlen. rewrite Hlen. reflexivity.
Qed.

Lemma read_package_good_data (tag : string) (c : class) (n : nat)
    (vals : list value) :
  Main.training_classes !! tag = Some c ->
  Main.correct_list_length !! tag = Some n ->
  ~ In VNone vals -> length vals = n ->
  Main.read_package tag vals = Main.new c vals.
Proof.
  intros Hc Hn Hnone Hlen. rewrite (read_package_known tag c n vals Hc Hn).
  destruct (existsb is_None vals) eqn:E.
  - apply existsb_is_None in E. contradiction.
  - apply Nat.eqb_eq in Hlen. rewrite Hlen. reflexivity.
Qed.

(** C5, as stated, fails on its last part: the list
    [[9000, 1, 75, 10 ** 400]] holds no [None] and has the length of a
    walker's package, and no record is constructed: the constructor divides
    the height by 100, and an [int] that large raises [OverflowError]. *)
Lemma read_package_height_too_large :
  ~ In VNone [VInt 9000; VInt 1; VInt 75; VInt (10 ^ 400)] /\
  length [VInt 9000; VInt 1; VInt 75; VInt (10 ^ 400)] = 4%nat /\
  Main.read_package "WLK" [VInt 9000; VInt 1; VInt 75; VInt (10 ^ 400)] =
    Raise OverflowError.
Proof.
  split; [|split; [reflexivity | vm_compute; reflexivity]].
  cbn. intros [H|[H|[H|[H|[]]]]]; discriminate.
Qed.



(** ** Reading a package in [homework.py] *)

Lemma Homework_training_classes_lookup (tag : string) :
  Homework.training_classes !! tag =
    if decide (tag = "SWM") then Some Swimming
    else if decide (tag = "RUN") then Some Running
    else if decide (tag = "WLK") then Some SportsWalking
    else None.
Proof.
  unfold Homework.training_classes.
  repeat case_decide; subst; simplify_map_eq; reflexivity.
Qed.

(** The constructors of the two files build the same record from the same
    arguments, and raise the same exception. *)
Lemma new_agrees (c : class) (vals : list value) :
  Homework.new c vals =
    match Main.new c vals with
    | OK self => OK (forget self)
    | Raise e => Raise e
    end.
Proof.
  destruct c; destruct vals as [|a [|d [|w [|x [|y [|z rest]]]]]];
    try reflexivity.
  unfold Homework.new, Main.new, Main.new_SportsWalking.
  destruct (py_div x CM_IN_METER); reflexivity.
Qed.

Lemma read_package_new (tag : string) (vals : list value) :
  (exists c n,
     Main.training_classes !! tag = Some c /\
     Homework.training_classes !! tag = Some c /\
     Main.correct_list_length !! tag = Some n) \/
  (tag <> "SWM" /\ tag <> "RUN" /\ tag <> "WLK").
Proof.
  rewrite training_classes_lookup, Homework_training_classes_lookup,
    correct_list_length_lookup.
  repeat case_decide; eauto 10.
Qed.

(** On a package that [read_package] of [main.py] does not refuse, the two
    functions return the same record, the two attributes written by the
    methods apart, and raise the same exception. *)
Lemma read_package_agrees_result (tag : string) (vals : list value) :
  match Main.read_package tag vals with
  | OK self => Homework.read_package tag vals = OK (forget self)
  | Raise (Exception _) => True
  | Raise e => Homework.read_package tag vals = Raise e
  end.
Proof.
  destruct (read_package_new tag vals) as [(c & n & Hm & Hh & Hl)|(H1 & H2 & H3)].
  - rewrite (read_package_known tag c n vals Hm Hl).
    destruct (existsb is_None vals); [exact I|].
    destruct (length vals =? n)%nat; [|exact I].
    unfold Homework.read_package, subscript. rewrite Hh. cbn [rbind].
    rewrite new_agrees. destruct (Main.new c vals) as [self|[]]; auto.
  - rewrite (read_package_not_found tag vals H1 H2 H3). exact I.
Qed.

Lemma read_package_agrees (tag : string) (vals : list value)
    (self : Main.object) :
  Main.read_package tag vals = OK self ->
  Homework.read_package tag vals = OK (forget self).
Proof.
  intros H. pose proof (read_package_agrees_result tag vals) as Hr.
  rewrite H in Hr. exact Hr.
Qed.

Lemma Homework_new_arity (c : class) (n : nat) (vals : list value) :
  (c = Swimming /\ n = 5%nat) \/ (c = Running /\ n = 3%nat) \/
  (c = SportsWalking /\ n = 4%nat) ->
  length vals <> n ->
  Homework.new c vals = Raise (TypeError BadArity).
Proof.
  intros [[-> ->]|[[-> ->]|[-> ->]]] Hlen;
    destruct vals as [|? [|? [|? [|? [|? [|? ?]]]]]];
    cbn in Hlen; try reflexivity; contradiction Hlen; reflexivity.
Qed.




(** ** The shape of a rendered number *)

Lemma is_digit_digit (z : Z) : (0 <= z < 10)%Z -> is_digit (digit z) = true.
Proof.
  intros Hz.
  assert (H : (z = 0 \/ z = 1 \/ z = 2 \/ z = 3 \/ z = 4 \/ z = 5 \/ z = 6 \/
               z = 7 \/ z = 8 \/ z = 9)%Z) by lia.
  repeat (destruct H as [->|H]; [reflexivity|]). subst. reflexivity.
Qed.

Lemma digits_rev_digits (fuel : nat) (n : Z) :
  (0 <= n)%Z -> forallb is_digit (digits_rev fuel n) = true.
Proof.
  revert n. induction fuel as [|fuel IH]; intros n Hn; [reflexivity|].
  cbn [digits_rev]. destruct (n <? 10)%Z eqn:E.
  - cbn. rewrite is_digit_digit; [reflexivity | lia].
  - cbn [forallb]. rewrite is_digit_digit by (apply Z.mod_pos_bound; lia).
    rewrite IH; [reflexivity | apply Z.div_pos; lia].
Qed.

Lemma digits_rev_nonempty (n : Z) : digits_rev (digits_fuel n) n <> [].
Proof.
  unfold digits_fuel. cbn [digits_rev]. destruct (n <? 10)%Z; discriminate.
Qed.

Lemma list_ind3 {A : Type} (P : list A -> Prop) :
  P [] -> (forall a, P [a]) -> (forall a b, P [a; b]) ->
  (forall a b c, P [a; b; c]) ->
  (forall a b c d rest, P (d :: rest) -> P (a :: b :: c :: d :: rest)) ->
  forall l, P l.
Proof.
  intros H0 H1 H2 H3 H4 l.
  remember (length l) as n eqn:Hn. revert l Hn.
  induction n as [n IH] using lt_wf_ind. intros l Hn.
  destruct l as [|a [|b [|c [|d rest]]]]; auto.
  apply H4. apply (IH (length (d :: rest))); [subst n; cbn; lia | reflexivity].
Qed.

Lemma group3_rev_step (a b c d : ascii) (rest : list ascii) :
  group3_rev (a :: b :: c :: d :: rest) =
    a :: b :: c :: comma :: group3_rev (d :: rest).
Proof. reflexivity. Qed.

Lemma group3_rev_chars (l : list ascii) :
  forallb is_digit l = true -> forallb digit_or_comma (group3_rev l) = true.
Proof.
  induction l as [|a|a b|a b c|a b c d rest IH] using list_ind3.
  - reflexivity.
  - cbn. unfold digit_or_comma. intros H. apply andb_prop in H as [-> _]. reflexivity.
  - cbn. unfold digit_or_comma. intros H. apply andb_prop in H as [-> H].
    apply andb_prop in H as [-> _]. reflexivity.
  - cbn. unfold digit_or_comma. intros H. apply andb_prop in H as [-> H].
    apply andb_prop in H as [-> H]. apply andb_prop in H as [-> _]. reflexivity.
  - rewrite group3_rev_step. intros H. cbn [forallb] in H.
    apply andb_prop in H as [Ha H]. apply andb_prop in H as [Hb H].
    apply andb_prop in H as [Hc H].
    cbn [forallb]. unfold digit_or_comma at 1 2 3 4.
    rewrite Ha, Hb, Hc, (IH H). reflexivity.
Qed.

Lemma grouped_rev_step (a b c s : ascii) (rest : list ascii) :
  grouped_rev (a :: b :: c :: s :: rest) =
    is_digit a && is_digit b && is_digit c && Ascii.eqb s comma && grouped_rev rest.
Proof. reflexivity. Qed.

Lemma grouped_group3_rev (l : list ascii) :
  l <> [] -> forallb is_digit l = true -> grouped_rev (group3_rev l) = true.
Proof.
  induction l as [|a|a b|a b c|a b c d rest IH] using list_ind3; intros Hne H.
  - contradiction.
  - cbn in *. now rewrite andb_true_r in H.
  - cbn in *. now rewrite andb_true_r in H.
  - cbn in *. now rewrite andb_true_r, andb_assoc in H.
  - rewrite group3_rev_step. cbn [forallb] in H.
    apply andb_prop in H as [Ha H]. apply andb_prop in H as [Hb H].
    apply andb_prop in H as [Hc H].
    rewrite grouped_rev_step, Ha, Hb, Hc, IH; [reflexivity | discriminate | exact H].
Qed.

Lemma not_minus (c : ascii) : digit_or_comma c = true -> Ascii.eqb c "-" = false.
Proof.
  intros H. destruct (Ascii.eqb_spec c "-") as [->|]; [discriminate H | reflexivity].
Qed.

Lemma is_digit_or_comma (c : ascii) : is_digit c = true -> digit_or_comma c = true.
Proof. unfold digit_or_comma. now intros ->. Qed.

Lemma int_digits_chars (grouping : bool) (n : Z) :
  (0 <= n)%Z -> forallb digit_or_comma (int_digits grouping n) = true.
Proof.
  intros Hn. unfold int_digits.
  pose proof (digits_rev_digits (digits_fuel n) n Hn) as Hd.
  apply forallb_forall. intros c Hc. apply in_rev in Hc.
  destruct grouping.
  - pose proof (group3_rev_chars _ Hd) as Hg.
    rewrite forallb_forall in Hg. now apply Hg.
  - rewrite forallb_forall in Hd. apply is_digit_or_comma. now apply Hd.
Qed.

Lemma group3_rev_nil (l : list ascii) : group3_rev l = [] -> l = [].
Proof. destruct l as [|a [|b [|c [|d rest]]]]; cbn; congruence. Qed.

Lemma int_digits_nonempty (grouping : bool) (n : Z) : int_digits grouping n <> [].
Proof.
  unfold int_digits. pose proof (digits_rev_nonempty n) as Hne.
  intros E. apply (f_equal (@rev ascii)) in E. rewrite rev_involutive in E.
  change (rev []) with (@nil ascii) in E.
  destruct grouping; [apply group3_rev_nil in E|]; contradiction.
Qed.

Lemma frac_digits_digits (f : Z) :
  (0 <= f < 1000)%Z -> forallb is_digit (frac_digits f) = true.
Proof.
  intros Hf. unfold frac_digits. cbn [forallb].
  rewrite !is_digit_digit; [reflexivity | | |].
  - apply Z.mod_pos_bound. lia.
  - apply Z.mod_pos_bound. lia.
  - split; [apply Z.div_pos; lia | apply Z.div_lt_upper_bound; lia].
Qed.

(** A number of thousandths is rendered with exactly three decimals; the
    integer part is grouped by commas exactly when the format asks for
    it. *)
Lemma format_thousandths_shape (grouping neg : bool) (n : Z) :
  (0 <= n)%Z ->
  is_three_decimals grouping (format_thousandths grouping neg n) = true.
Proof.
  intros Hn. unfold is_three_decimals, format_thousandths.
  rewrite list_ascii_of_string_of_list_ascii.
  assert (Hip : (0 <= n / 1000)%Z) by (apply Z.div_pos; lia).
  assert (Hfp : (0 <= n mod 1000 < 1000)%Z) by (apply Z.mod_pos_bound; lia).
  pose proof (int_digits_chars grouping _ Hip) as Hchars.
  pose proof (int_digits_nonempty grouping (n / 1000)) as Hne.
  pose proof (frac_digits_digits _ Hfp) as Hfrac.
  assert (Hbody :
    match ((if neg then ["-"%char] else []) ++
           int_digits grouping (n / 1000) ++
           "."%char :: frac_digits (n mod 1000))%list
    with
    | c :: t =>
        if Ascii.eqb c "-"
        then t
        else ((if neg then ["-"%char] else []) ++
              int_digits grouping (n / 1000) ++
              "."%char :: frac_digits (n mod 1000))%list
    | [] => []
    end =
    (int_digits grouping (n / 1000) ++
     "."%char :: frac_digits (n mod 1000))%list).
  { destruct neg; [reflexivity|].
    cbn [app]. destruct (int_digits grouping (n / 1000)) as [|c t]; [contradiction|].
    cbn [app forallb] in *. apply andb_prop in Hchars as [Hc _].
    now rewrite (not_minus c Hc). }
  rewrite Hbody. clear Hbody Hchars Hne.
  rewrite rev_app_distr. unfold frac_digits in *. cbn [rev app forallb] in *.
  apply andb_prop in Hfrac as [H1 Hfrac]. apply andb_prop in Hfrac as [H2 Hfrac].
  apply andb_prop in Hfrac as [H3 _]. rewrite H1, H2, H3. cbn [andb Ascii.eqb].
  unfold int_digits. rewrite rev_involutive.
  pose proof (digits_rev_digits (digits_fuel (n / 1000)) _ Hip) as Hd.
  pose proof (digits_rev_nonempty (n / 1000)) as Hn0.
  destruct grouping.
  - now apply grouped_group3_rev.
  - rewrite Hd, andb_true_r.
    destruct (digits_rev (digits_fuel (n / 1000)) (n / 1000));
      [contradiction | reflexivity].
Qed.

Lemma digit_value_digit (z : Z) : (0 <= z < 10)%Z -> digit_value (digit z) = z.
Proof.
  intros Hz.
  assert (H : (z = 0 \/ z = 1 \/ z = 2 \/ z = 3 \/ z = 4 \/ z = 5 \/ z = 6 \/
               z = 7 \/ z = 8 \/ z = 9)%Z) by lia.
  repeat (destruct H as [->|H]; [reflexivity|]). subst. reflexivity.
Qed.

Lemma digits_value_rev_digits_rev (fuel : nat) (n : Z) :
  (0 <= n < 10 ^ Z.of_nat fuel)%Z -> digits_value_rev (digits_rev fuel n) = n.
Proof.
  revert n. induction fuel as [|fuel IH]; intros n Hn.
  - cbn in *. lia.
  - cbn [digits_rev]. destruct (n <? 10)%Z eqn:E.
    + apply Z.ltb_lt in E. cbn [digits_value_rev].
      rewrite is_digit_digit, digit_value_digit by lia. lia.
    + apply Z.ltb_ge in E. cbn [digits_value_rev].
      pose proof (Z.mod_pos_bound n 10 ltac:(lia)) as Hm.
      rewrite is_digit_digit, digit_value_digit by lia.
      rewrite IH.
      * pose proof (Z.div_mod n 10 ltac:(lia)). lia.
      * split; [apply Z.div_pos; lia|].
        apply Z.div_lt_upper_bound; [lia|].
        rewrite Nat2Z.inj_succ, Z.pow_succ_r in Hn by lia. lia.
Qed.

Lemma digits_fuel_enough (n : Z) :
  (0 <= n)%Z -> (n < 10 ^ Z.of_nat (digits_fuel n))%Z.
Proof.
  intros Hn. unfold digits_fuel.
  pose proof (Z.log2_nonneg n) as Hl.
  rewrite Nat2Z.inj_succ, Z2Nat.id by lia.
  apply Z.lt_le_trans with (2 ^ Z.succ (Z.log2 n))%Z.
  - destruct (Z.eq_dec n 0%Z) as [->|Hz]; [reflexivity|].
    apply Z.log2_spec. lia.
  - apply Z.pow_le_mono_l. lia.
Qed.

Lemma digits_value_rev_group3_rev (l : list ascii) :
  digits_value_rev (group3_rev l) = digits_value_rev l.
Proof.
  induction l as [|a|a b|a b c|a b c d rest IH] using list_ind3;
    try reflexivity.
  rewrite group3_rev_step.
  cbn [digits_value_rev]. rewrite IH.
  change (is_digit comma) with false. cbn [digits_value_rev]. reflexivity.
Qed.

Lemma digits_value_rev_sign (l sign : list ascii) :
  sign = [] \/ sign = ["-"%char] ->
  digits_value_rev (l ++ sign) = digits_value_rev l.
Proof.
  intros Hs. induction l as [|c l IH].
  - destruct Hs as [->| ->]; reflexivity.
  - cbn [app digits_value_rev]. now rewrite IH.
Qed.

Lemma frac_digits_value (f : Z) :
  (0 <= f < 1000)%Z ->
  (digit_value (digit (f mod 10)) + 10 * (digit_value (digit (f / 10 mod 10))
   + 10 * digit_value (digit (f / 100))) = f)%Z.
Proof.
  intros Hf.
  rewrite !digit_value_digit.
  - pose proof (Z.div_mod f 10 ltac:(lia)).
    pose proof (Z.div_mod (f / 10) 10 ltac:(lia)).
    rewrite Z.div_div in H0 by lia. change (10 * 10)%Z with 100%Z in H0. lia.
  - split; [apply Z.div_pos; lia | apply Z.div_lt_upper_bound; lia].
  - apply Z.mod_pos_bound. lia.
  - apply Z.mod_pos_bound. lia.
Qed.

(** The text of a number of thousandths writes that number. *)
Lemma format_thousandths_value (grouping neg : bool) (n : Z) :
  (0 <= n)%Z -> thousandths (format_thousandths grouping neg n) = n.
Proof.
  intros Hn. unfold thousandths, format_thousandths.
  rewrite list_ascii_of_string_of_list_ascii.
  assert (Hip : (0 <= n / 1000)%Z) by (apply Z.div_pos; lia).
  assert (Hfp : (0 <= n mod 1000 < 1000)%Z) by (apply Z.mod_pos_bound; lia).
  rewrite rev_app_distr. cbn [rev]. rewrite rev_app_distr.
  unfold int_digits. rewrite rev_involutive.
  unfold frac_digits. cbn [rev app].
  pose proof (frac_digits_digits _ Hfp) as Hd. unfold frac_digits in Hd.
  cbn [forallb] in Hd.
  apply andb_prop in Hd as [H1 Hd]. apply andb_prop in Hd as [H2 Hd].
  apply andb_prop in Hd as [H3 _].
  cbn [digits_value_rev]. rewrite H1, H2, H3.
  change (is_digit ".") with false. cbv iota.
  rewrite digits_value_rev_sign
    by (destruct neg; [right | left]; reflexivity).
  assert (Hv : digits_value_rev
                 (if grouping
                  then group3_rev (digits_rev (digits_fuel (n / 1000)) (n / 1000))
                  else digits_rev (digits_fuel (n / 1000)) (n / 1000)) =
               (n / 1000)%Z).
  { destruct grouping; [rewrite digits_value_rev_group3_rev|];
      apply digits_value_rev_digits_rev;
      (split; [exact Hip | apply digits_fuel_enough; exact Hip]). }
  rewrite Hv. pose proof (frac_digits_value _ Hfp) as Hf.
  pose proof (Z.div_mod n 1000 ltac:(lia)). lia.
Qed.

(** [round_half_even] returns a nearest integer, the even one of two. *)
Lemma round_half_even_nearest (q : Q) :
  (Qabs (inject_Z (round_half_even q) - q) <= 1 # 2)%Q.
Proof.
  destruct q as [n d]. unfold round_half_even. cbn [Qnum Qden].
  pose proof (Z.div_mod n (Zpos d) ltac:(lia)) as Hdm.
  pose proof (Z.mod_pos_bound n (Zpos d) ltac:(lia)) as Hm.
  apply Qabs_Qle_condition.
  destruct (Z.compare_spec (2 * (n mod Zpos d)) (Zpos d)) as [E|E|E];
    [destruct (Z.even (n / Zpos d))| |];
    unfold Qle, Qminus, Qplus, Qopp, inject_Z; cbn [Qnum Qden];
    split; nia.
Qed.

Lemma round_half_even_nonneg (q : Q) :
  (0 <= Qnum q)%Z -> (0 <= round_half_even q)%Z.
Proof.
  intros Hq. unfold round_half_even.
  assert (0 <= Qnum q / Zpos (Qden q))%Z by (apply Z.div_pos; lia).
  destruct (2 * (Qnum q mod Zpos (Qden q)) ?= Zpos (Qden q))%Z;
    [destruct (Z.even _)| |]; lia.
Qed.

Lemma magnitude_nonneg (m : BinNums.positive) (e : Z) :
  (0 <= Qnum (magnitude m e * 1000))%Z.
Proof. destruct e; cbn; lia. Qed.

(** A float that is a number is rendered with exactly three decimals, and
    its text writes the number of thousandths nearest to its exact
    value. *)
Lemma format_float_shape (grouping : bool) (f : float) :
  is_finite f = true ->
  is_three_decimals grouping (format_float grouping f) = true /\
  thousandths (format_float grouping f) =
    round_half_even (exact_thousandths f).
Proof.
  unfold is_finite, format_float, exact_thousandths.
  destruct (Prim2SF f) as [s|s| |s m e]; try discriminate; intros _.
  - split; [now apply format_thousandths_shape|].
    now apply format_thousandths_value.
  - pose proof (round_half_even_nonneg _ (magnitude_nonneg m e)) as Hr.
    split; [now apply format_thousandths_shape|].
    now apply format_thousandths_value.
Qed.

Lemma format_float_not_finite (grouping : bool) (f : float) :
  is_finite f = false ->
  format_float grouping f = "inf" \/ format_float grouping f = "-inf" \/
  format_float grouping f = "nan".
Proof.
  unfold is_finite, format_float.
  destruct (Prim2SF f) as [s|[]| |s m e]; try discriminate; auto.
Qed.

(** ** The message *)

Lemma py_format_as_float (grouping : bool) (v : value) (f : float) :
  as_float v = OK f -> py_format grouping v = OK (format_float grouping f).
Proof.
  destruct v as [|n|x]; cbn; [discriminate | | congruence].
  intros ->. reflexivity.
Qed.

Lemma show_training_info_name (self : Main.object) (info : InfoMessage.t) :
  fst (Main.show_training_info self) = OK info ->
  InfoMessage.training_type info = class_name (Main.class_of self).
Proof.
  cbv [Main.show_training_info Main.bind Main.attr Main.ret].
  destruct (Main.get_distance self) as [[dist|e] s1]; [|discriminate].
  destruct (Main.get_mean_speed s1) as [[v|e] s2]; [|discriminate].
  destruct (Main.get_spent_calories s2) as [[c|e] s3]; [|discriminate].
  cbn. intros [= <-]. reflexivity.
Qed.

Lemma get_message_outcome (info : InfoMessage.t) :
  is_number (InfoMessage.duration info) ->
  is_number (InfoMessage.distance info) ->
  is_number (InfoMessage.speed info) ->
  is_number (InfoMessage.calories info) ->
  only_overflow (fun _ => True) (InfoMessage.get_message info).
Proof.
  intros H1 H2 H3 H4. unfold InfoMessage.get_message.
  repeat (apply (only_overflow_bind (fun _ => True));
          [now apply py_format_outcome | intros ? _]).
  exact I.
Qed.




(** ** The sample package [("RUN", [15000, 1, 75])] *)

(** C7, as stated, fails on the calories: they are 797.805, more than 7
    away from 790.658. *)
Lemma RUN_sample_calories_not_790_658 :
  exists (self : Main.object) (info : InfoMessage.t) (c : float),
    Main.read_package "RUN" [VInt 15000; VInt 1; VInt 75] = OK self /\
    fst (Main.show_training_info self) = OK info /\
    InfoMessage.calories info = VFloat c /\
    c = 797.805%float /\
    (7 <? c - 790.658)%float = true /\
    py_format true (VFloat c) = OK "797.805" /\
    py_format true (VFloat c) <> OK "790.658".
Proof.
  do 3 eexists. split; [vm_compute; reflexivity|].
  split; [vm_compute; reflexivity|]. split; [reflexivity|].
  split; [reflexivity|]. split; [reflexivity|].
  split; [vm_compute; reflexivity | vm_compute; discriminate].
Qed.

(** C7, amended. The package [("RUN", [15000, 1, 75])] is read as a
    [Running] record whose summary has the distance 9.75 km, the mean speed
    9.75 km/h and the calories (18 * 9.75 + 1.79) * 75 / 1000 * 60 = 797.805;
    the message shows them as 9.750, 9.750 and 797.805. *)
Theorem RUN_sample_summary :
  exists (self : Main.object) (distance speed calories : float),
    Main.read_package "RUN" [VInt 15000; VInt 1; VInt 75] = OK self /\
    fst (Main.show_training_info self) =
      OK (InfoMessage.Build "Running" (VInt 1) (VFloat distance)
            (VFloat speed) (VFloat calories)) /\
    distance = 9.75%float /\
    speed = 9.75%float /\
    calories = ((18 * 9.75 + 1.79) * 75 / 1000 * 60)%float /\
    calories = 797.805%float /\
    fst (Main.main self) =
      OK "Тип тренировки: Running; Длительность: 1.000 ч.; Дистанция: 9.750 км; Ср. скорость: 9.750 км/ч; Потрачено ккал: 797.805.".
Proof.
  do 4 eexists. split; [vm_compute; reflexivity|].
  split; [vm_compute; reflexivity|].
  repeat split; vm_compute; reflexivity.
Qed.

(** * Further properties of the code *)

(** ** What [read_package] of [main.py] returns and raises *)

Lemma no_None_existsb (vals : list value) :
  existsb is_None vals = false -> Forall is_number vals.
Proof.
  intros E. apply no_None_numbers. intros Hin.
  apply existsb_is_None in Hin. congruence.
Qed.

Lemma read_package_cases (tag : string) (vals : list value) :
  (exists self, Main.read_package tag vals = OK self /\ accepted tag vals self) \/
  Main.read_package tag vals = Raise (Exception Main.NOT_FOUND) \/
  Main.read_package tag vals = Raise (Exception Main.BAD_DATA) \/
  (exists (a d w : value) (n : Z),
     tag = "WLK" /\ vals = [a; d; w; VInt n] /\
     int_true_div n 100 = Raise OverflowError /\
     Main.read_package tag vals = Raise OverflowError).
Proof.
  destruct (decide (tag = "SWM")) as [->|H1];
    [|destruct (decide (tag = "RUN")) as [->|H2];
      [|destruct (decide (tag = "WLK")) as [->|H3]]].
  - rewrite (read_package_known "SWM" Swimming 5 vals) by reflexivity.
    destruct (existsb is_None vals) eqn:E; [tauto|].
    destruct (length vals =? 5)%nat eqn:L; [|tauto]. left.
    apply Nat.eqb_eq in L. apply no_None_existsb in E.
    destruct (length_5 vals L) as (a & d & w & l & c & ->).
    eexists. split; [reflexivity | now constructor].
  - rewrite (read_package_known "RUN" Running 3 vals) by reflexivity.
    destruct (existsb is_None vals) eqn:E; [tauto|].
    destruct (length vals =? 3)%nat eqn:L; [|tauto]. left.
    apply Nat.eqb_eq in L. apply no_None_existsb in E.
    destruct (length_3 vals L) as (a & d & w & ->).
    eexists. split; [reflexivity | now constructor].
  - rewrite (read_package_known "WLK" SportsWalking 4 vals) by reflexivity.
    destruct (existsb is_None vals) eqn:E; [tauto|].
    destruct (length vals =? 4)%nat eqn:L; [|tauto].
    apply Nat.eqb_eq in L. apply no_None_existsb in E.
    destruct (length_4 vals L) as (a & d & w & h & ->).
    assert (Hh : is_number h)
      by (rewrite List.Forall_forall in E; apply E; cbn; tauto).
    cbn [Main.new Main.new_SportsWalking].
    destruct h as [|n|f]; [contradiction| |].
    + cbn [py_div CM_IN_METER].
      pose proof (int_true_div_outcome n 100 ltac:(discriminate)) as Hout.
      destruct (int_true_div n 100) as [q|e] eqn:Hq; cbn [rbind].
      * left. eexists. split; [reflexivity|].
        apply accepted_WLK; [exact E|]. cbn [py_div CM_IN_METER].
        rewrite Hq. reflexivity.
      * cbn in Hout. subst e. right. right. right.
        exists a, d, w, n. repeat split. exact Hq.
    + left. change CM_IN_METER with (VInt 100). rewrite py_div_100.
      eexists. split; [reflexivity|].
      apply accepted_WLK; [exact E | apply py_div_100].
  - right. left. now apply read_package_not_found.
Qed.

Lemma read_package_accepted (tag : string) (vals : list value)
    (self : Main.object) :
  Main.read_package tag vals = OK self -> accepted tag vals self.
Proof.
  intros H.
  destruct (read_package_cases tag vals)
    as [(o & Ho & Hacc)|[E|[E|(a & d & w & n & _ & _ & _ & E)]]];
    congruence.
Qed.


(** X2. [checking_correct_data] answers [False] for a list that holds
    [None], whatever the tag; for a list of numbers it answers whether the
    length is the one of the tag, and raises a key error on a tag that is
    not in its table. *)
Theorem checking_correct_data_cases (tag : string) (vals : list value) :
  Main.checking_correct_data tag vals =
    if existsb is_None vals then OK false
    else if decide (tag = "SWM") then OK (length vals =? 5)%nat
    else if decide (tag = "RUN") then OK (length vals =? 3)%nat
    else if decide (tag = "WLK") then OK (length vals =? 4)%nat
    else Raise (KeyError tag).
Proof.
  unfold Main.checking_correct_data, subscript.
  rewrite correct_list_length_lookup.
  destruct (existsb is_None vals); [reflexivity|].
  repeat case_decide; cbn [rbind]; try reflexivity;
    match goal with |- context [(?a =? ?b)%nat] => destruct (a =? b)%nat end;
    reflexivity.
Qed.

(** ** [main.py] and [homework.py] compared *)

Lemma main_agrees (self : Main.object) :
  Main.class_of self <> Training ->
  fst (Main.main self) = Homework.main (forget self).
Proof.
  intros Hc. pose proof (show_training_info_agrees self Hc) as Hs.
  cbv [Main.main Homework.main Main.bind Main.lift rbind].
  rewrite <- Hs. destruct (Main.show_training_info self) as [[i|e] s];
    reflexivity.
Qed.

Lemma accepted_not_Training (tag : string) (vals : list value)
    (self : Main.object) :
  accepted tag vals self -> Main.class_of self <> Training.
Proof. intros []; discriminate. Qed.

Lemma Forall_number_in (vals : list value) (v : value) :
  Forall is_number vals -> In v vals -> is_number v.
Proof. rewrite List.Forall_forall. auto. Qed.

Lemma accepted_numeric (tag : string) (vals : list value)
    (self : Main.object) :
  accepted tag vals self -> numeric (forget self).
Proof.
  intros [a d w l c H|a d w H|a d w h x H Hdiv]; unfold numeric; cbn;
    repeat split;
    try (apply (Forall_number_in _ _ H); cbn; tauto).
  assert (Hh : is_number h) by (apply (Forall_number_in _ _ H); cbn; tauto).
  pose proof (py_div_outcome h CM_IN_METER Hh I eq_refl) as Hout.
  rewrite Hdiv in Hout. exact Hout.
Qed.

(** ** The failures after validation *)

(** X3. A record returned by [read_package] of [main.py] makes [main]
    raise nothing but the two exceptions of arithmetic on numbers.  When
    the duration is zero, or the stored height of a walker is zero, [main]
    prints nothing and raises [ZeroDivisionError] or [OverflowError].  In
    every other case, negative values included, [main] prints a line or
    raises [OverflowError]. *)
Theorem main_raises_only_arithmetic_errors (tag : string)
    (vals : list value) (self : Main.object) :
  Main.read_package tag vals = OK self ->
  (zero_divisor (forget self) = true ->
   raises_arithmetic_error (fst (Main.main self))) /\
  (zero_divisor (forget self) = false ->
   only_overflow (fun _ => True) (fst (Main.main self))).
Proof.
  intros H. apply read_package_accepted in H.
  pose proof (accepted_numeric tag vals self H) as Hnum.
  rewrite (main_agrees self (accepted_not_Training tag vals self H)).
  split; intros Hz.
  - now apply Homework_main_zero.
  - now apply Homework_main_outcome.
Qed.

Lemma main_raises_only_arithmetic_errors_witness :
  raises_arithmetic_error
    (fst (Main.main
            (Main.Build Running (VInt 15000) (VInt 0) (VInt 75) (VFloat 0)
               (VFloat 0) NoAttrs))) /\
  only_overflow (fun _ => True)
    (fst (Main.main
            (Main.Build Running (VInt 15000) (VInt (-1)) (VInt 75) (VFloat 0)
               (VFloat 0) NoAttrs))).
Proof.
  split.
  - apply (proj1 (main_raises_only_arithmetic_errors
                    "RUN" [VInt 15000; VInt 0; VInt 75] _ eq_refl)).
    reflexivity.
  - apply (proj2 (main_raises_only_arithmetic_errors
                    "RUN" [VInt 15000; VInt (-1); VInt 75] _ eq_refl)).
    reflexivity.
Defined.

(** ** The attributes written by the methods are never read *)

Lemma same_inputs_forget (o o' : Main.object) :
  forget o' = forget o -> same_inputs o o'.
Proof.
  destruct o, o'. unfold forget. cbn. intros [= -> -> -> -> ->].
  repeat split.
Qed.

Lemma Training_or_not (c : class) : c = Training \/ c <> Training.
Proof. destruct c; [left; reflexivity | right; discriminate ..]. Qed.

Lemma Training_get_spent_calories (self : Main.object) :
  Main.class_of self = Training ->
  Main.get_spent_calories self = (Raise NotImplementedError, self).
Proof. intros H. unfold Main.get_spent_calories. now rewrite H. Qed.

Lemma get_spent_calories_ignores_caches (o o' : Main.object) :
  forget o' = forget o ->
  fst (Main.get_spent_calories o') = fst (Main.get_spent_calories o).
Proof.
  intros H.
  assert (Hc : Main.class_of o' = Main.class_of o)
    by exact (f_equal Homework.class_of H).
  destruct (Training_or_not (Main.class_of o)) as [E|E].
  - rewrite !Training_get_spent_calories by congruence. reflexivity.
  - rewrite !get_spent_calories_agrees by congruence. now rewrite H.
Qed.

Lemma show_training_info_ignores_caches (o o' : Main.object) :
  forget o' = forget o ->
  fst (Main.show_training_info o') = fst (Main.show_training_info o).
Proof.
  intros H.
  assert (Hc : Main.class_of o' = Main.class_of o)
    by exact (f_equal Homework.class_of H).
  destruct (Training_or_not (Main.class_of o)) as [E|E].
  - assert (Hd : Main.duration o' = Main.duration o)
      by exact (f_equal Homework.duration H).
    cbv [Main.show_training_info Main.bind Main.attr Main.ret].
    rewrite !get_distance_agrees, H.
    destruct (Homework.get_distance (forget o)); [|reflexivity].
    destruct (get_mean_speed_run o) as (s1 & -> & Hs1).
    destruct (get_mean_speed_run o') as (s1' & -> & Hs1').
    rewrite H.
    destruct (Homework.get_mean_speed (forget o)); [|reflexivity].
    rewrite !Training_get_spent_calories; [reflexivity | |].
    + rewrite <- E. exact (f_equal Homework.class_of Hs1).
    + rewrite <- E, <- Hc. exact (f_equal Homework.class_of Hs1').
  - rewrite !show_training_info_agrees by congruence. now rewrite H.
Qed.

Lemma main_ignores_caches (o o' : Main.object) :
  forget o' = forget o -> fst (Main.main o') = fst (Main.main o).
Proof.
  intros H. pose proof (show_training_info_ignores_caches o o' H) as Hs.
  cbv [Main.main Main.bind Main.lift].
  destruct (Main.show_training_info o') as [[i'|e'] s'],
           (Main.show_training_info o) as [[i|e] s]; cbn in Hs |- *;
    congruence.
Qed.

(** X4. The two attributes that the methods write are never read back:
    on two records with the same class and the same attributes read from
    the package, whatever [spent_calories] and [mean_speed_km_h] hold, a
    method returns the same value or raises the same exception. *)
Theorem results_ignore_caches (o o' : Main.object) :
  same_inputs o o' ->
  fst (Main.get_distance o') = fst (Main.get_distance o) /\
  fst (Main.get_mean_speed o') = fst (Main.get_mean_speed o) /\
  fst (Main.get_spent_calories o') = fst (Main.get_spent_calories o) /\
  fst (Main.show_training_info o') = fst (Main.show_training_info o) /\
  fst (Main.main o') = fst (Main.main o).
Proof.
  intros H. apply forget_same_inputs in H.
  split; [now rewrite !get_distance_agrees, H|].
  split; [now rewrite !get_mean_speed_agrees, H|].
  split; [now apply get_spent_calories_ignores_caches|].
  split; [now apply show_training_info_ignores_caches|].
  now apply main_ignores_caches.
Qed.

Lemma results_ignore_caches_witness :
  fst (Main.main
         (Main.Build Running (VInt 15000) (VInt 1) (VInt 75) VNone (VInt 7)
            NoAttrs)) =
  fst (Main.main
         (Main.Build Running (VInt 15000) (VInt 1) (VInt 75) (VFloat 0)
            (VFloat 0) NoAttrs)).
Proof.
  apply (results_ignore_caches
           (Main.Build Running (VInt 15000) (VInt 1) (VInt 75) (VFloat 0)
              (VFloat 0) NoAttrs)
           (Main.Build Running (VInt 15000) (VInt 1) (VInt 75) VNone (VInt 7)
              NoAttrs)).
  repeat split.
Defined.

(** X5. Called on the record that any of the methods has left, a method
    returns what it returns on the record as it was: the summary can be
    computed again, in any order, with the same result. *)
Theorem methods_repeatable (self : Main.object) :
  let after_distance := snd (Main.get_distance self) in
  let after_speed := snd (Main.get_mean_speed self) in
  let after_calories := snd (Main.get_spent_calories self) in
  let after_info := snd (Main.show_training_info self) in
  forall s, In s [after_distance; after_speed; after_calories; after_info] ->
    fst (Main.get_distance s) = fst (Main.get_distance self) /\
    fst (Main.get_mean_speed s) = fst (Main.get_mean_speed self) /\
    fst (Main.get_spent_calories s) = fst (Main.get_spent_calories self) /\
    fst (Main.show_training_info s) = fst (Main.show_training_info self) /\
    fst (Main.main s) = fst (Main.main self).
Proof.
  intros after_distance after_speed after_calories after_info s Hs.
  assert (H : forget s = forget self).
  { apply forget_same_inputs.
    destruct Hs as [<-|[<-|[<-|[<-|[]]]]].
    - subst after_distance. rewrite <- (get_distance_pure self).
      apply same_inputs_refl.
    - apply same_but_speed_inputs, get_mean_speed_frame.
    - apply get_spent_calories_frame.
    - apply show_training_info_frame. }
  split; [now rewrite !get_distance_agrees, H|].
  split; [now rewrite !get_mean_speed_agrees, H|].
  split; [now apply get_spent_calories_ignores_caches|].
  split; [now apply show_training_info_ignores_caches|].
  now apply main_ignores_caches.
Qed.

Lemma methods_repeatable_witness :
  fst (Main.show_training_info
         (snd (Main.get_spent_calories
                 (Main.Build Swimming (VInt 720) (VInt 1) (VInt 80) (VFloat 0)
                    (VFloat 0) (SwimmingAttrs (VInt 25) (VInt 40)))))) =
  fst (Main.show_training_info
         (Main.Build Swimming (VInt 720) (VInt 1) (VInt 80) (VFloat 0)
            (VFloat 0) (SwimmingAttrs (VInt 25) (VInt 40)))).
Proof.
  apply (methods_repeatable
           (Main.Build Swimming (VInt 720) (VInt 1) (VInt 80) (VFloat 0)
              (VFloat 0) (SwimmingAttrs (VInt 25) (VInt 40)))).
  right. right. left. reflexivity.
Defined.

(** ** What a summary leaves in the record *)

(** After [get_spent_calories] has returned, [mean_speed_km_h] holds the
    mean speed of the record. *)
Lemma get_spent_calories_speed (self s' : Main.object) (c : value) :
  Main.get_spent_calories self = (OK c, s') ->
  fst (Main.get_mean_speed self) = OK (Main.mean_speed_km_h s').
Proof.
  intros H. destruct (Training_or_not (Main.class_of self)) as [E|E].
  - rewrite (Training_get_spent_calories self E) in H. discriminate.
  - rewrite (get_spent_calories_computes self E) in H.
    rewrite get_mean_speed_agrees.
    destruct (Homework.get_mean_speed (forget self)) as [v|e]; [|discriminate].
    destruct (Homework.get_spent_calories (forget self)); [|discriminate].
    injection H as _ <-. reflexivity.
Qed.

(** X6. When [show_training_info] returns a summary, the record it leaves
    holds the mean speed and the calories of that summary in
    [mean_speed_km_h] and [spent_calories], and the attributes read from
    the package as they were; the duration of the summary is the duration
    of the record. *)
Theorem show_training_info_caches (self s' : Main.object)
    (info : InfoMessage.t) :
  Main.show_training_info self = (OK info, s') ->
  Main.mean_speed_km_h s' = InfoMessage.speed info /\
  Main.spent_calories s' = InfoMessage.calories info /\
  InfoMessage.duration info = Main.duration s' /\
  same_inputs self s'.
Proof.
  intros H.
  pose proof (show_training_info_frame self) as Hf. rewrite H in Hf.
  cbn [snd] in Hf.
  revert H. cbv [Main.show_training_info Main.bind Main.attr Main.ret].
  rewrite get_distance_agrees.
  destruct (Homework.get_distance (forget self)) as [dist|e]; [|discriminate].
  destruct (Main.get_mean_speed self) as [[v|e] s1] eqn:E1; [|discriminate].
  destruct (Main.get_spent_calories s1) as [[c|e] s2] eqn:E2; [|discriminate].
  intros [= <- <-]. cbn [InfoMessage.speed InfoMessage.calories InfoMessage.duration].
  pose proof (get_spent_calories_speed s1 s2 c E2) as Hv.
  pose proof (get_spent_calories_stores s1 c) as Hc. rewrite E2 in Hc.
  pose proof (get_mean_speed_frame self) as Hf1. rewrite E1 in Hf1.
  cbn [fst snd] in *.
  assert (Hsame : fst (Main.get_mean_speed s1) = fst (Main.get_mean_speed self)).
  { rewrite !get_mean_speed_agrees.
    now rewrite (forget_same_inputs _ _ (same_but_speed_inputs _ _ Hf1)). }
  rewrite E1 in Hsame. cbn in Hsame.
  split; [congruence|]. split; [now apply Hc|].
  split; [symmetry; apply Hf | exact Hf].
Qed.

Lemma show_training_info_caches_witness :
  exists (info : InfoMessage.t) (s' : Main.object),
    Main.show_training_info
      (Main.Build Running (VInt 15000) (VInt 1) (VInt 75) (VFloat 0)
         (VFloat 0) NoAttrs) = (OK info, s') /\
    Main.mean_speed_km_h s' = InfoMessage.speed info /\
    Main.spent_calories s' = InfoMessage.calories info.
Proof.
  do 2 eexists.
  assert (H : Main.show_training_info
                (Main.Build Running (VInt 15000) (VInt 1) (VInt 75) (VFloat 0)
                   (VFloat 0) NoAttrs) =
              (OK (InfoMessage.Build "Running" (VInt 1) (VFloat 9.75)
                     (VFloat 9.75) (VFloat 797.805)),
               Main.Build Running (VInt 15000) (VInt 1) (VInt 75)
                 (VFloat 797.805) (VFloat 9.75) NoAttrs))
    by (vm_compute; reflexivity).
  split; [exact H|].
  split; [exact (proj1 (show_training_info_caches _ _ _ H))
         |exact (proj1 (proj2 (show_training_info_caches _ _ _ H)))].
Defined.

(** X7. The methods of [main.py] return what the methods of [homework.py]
    return on the record with the same attributes, and raise when they
    raise; the one difference is [get_spent_calories] of the base class,
    which raises in [main.py] and returns [None] in [homework.py]. *)
Theorem methods_agree (self : Main.object) :
  fst (Main.get_distance self) = Homework.get_distance (forget self) /\
  fst (Main.get_mean_speed self) = Homework.get_mean_speed (forget self) /\
  (Main.class_of self <> Training ->
   fst (Main.get_spent_calories self) =
     Homework.get_spent_calories (forget self) /\
   fst (Main.show_training_info self) =
     Homework.show_training_info (forget self) /\
   fst (Main.main self) = Homework.main (forget self)) /\
  (Main.class_of self = Training ->
   fst (Main.get_spent_calories self) = Raise NotImplementedError /\
   Homework.get_spent_calories (forget self) = OK VNone).
Proof.
  split; [now rewrite get_distance_agrees|].
  split; [apply get_mean_speed_agrees|]. split.
  - intros Hc. split; [now apply get_spent_calories_agrees|].
    split; [now apply show_training_info_agrees | now apply main_agrees].
  - intros Hc. split.
    + now rewrite Training_get_spent_calories.
    + unfold Homework.get_spent_calories, forget. cbn. now rewrite Hc.
Qed.

(** X8. On a package that [read_package] of [main.py] accepts, the two
    files do the same: [read_package] of [homework.py] returns the record
    with the same attributes, and [main] prints the same line or lets the
    same exception through. *)
Theorem programs_agree_on_accepted (tag : string) (vals : list value)
    (self : Main.object) :
  Main.read_package tag vals = OK self ->
  Homework.read_package tag vals = OK (forget self) /\
  Homework.main (forget self) = fst (Main.main self).
Proof.
  intros H. split; [now apply read_package_agrees|].
  symmetry. apply main_agrees.
  exact (accepted_not_Training _ _ _ (read_package_accepted _ _ _ H)).
Qed.

Lemma programs_agree_on_accepted_witness :
  Homework.read_package "WLK" [VInt 9000; VInt 1; VInt 75; VInt 180] =
    OK (Homework.Build SportsWalking (VInt 9000) (VInt 1) (VInt 75)
          (WalkingAttrs (VFloat 1.8))) /\
  Homework.main
    (Homework.Build SportsWalking (VInt 9000) (VInt 1) (VInt 75)
       (WalkingAttrs (VFloat 1.8))) =
  fst (Main.main
         (Main.Build SportsWalking (VInt 9000) (VInt 1) (VInt 75) (VFloat 0)
            (VFloat 0) (WalkingAttrs (VFloat 1.8)))).
Proof.
  exact (programs_agree_on_accepted
           "WLK" [VInt 9000; VInt 1; VInt 75; VInt 180]
           (Main.Build SportsWalking (VInt 9000) (VInt 1) (VInt 75) (VFloat 0)
              (VFloat 0) (WalkingAttrs (VFloat 1.8))) eq_refl).
Defined.

(** ** The base class *)

Lemma py_mul_float_result (a : value) (y : float) (m : value) :
  py_mul a (VFloat y) = OK m -> exists x, m = VFloat x.
Proof.
  destruct a as [|n|x]; cbn [py_mul as_float rbind]; [discriminate| |].
  - destruct (float_of_int n); cbn [rbind]; [|discriminate].
    intros [= <-]. eauto.
  - intros [= <-]. eauto.
Qed.

Lemma py_div_float_result (x : float) (b v : value) :
  py_div (VFloat x) b = OK v ->
  (exists f, as_float b = OK f) /\ exists y, v = VFloat y.
Proof.
  destruct b as [|n|y]; cbn [py_div as_float rbind]; [discriminate| |].
  - destruct (n =? 0)%Z; [discriminate|].
    destruct (float_of_int n); cbn [rbind]; [|discriminate].
    intros [= <-]. eauto.
  - destruct (y =? 0)%float; [discriminate|]. intros [= <-]. eauto.
Qed.

Lemma Homework_get_distance_float (o : Homework.object) (dist : value) :
  Homework.get_distance o = OK dist -> exists x, dist = VFloat x.
Proof.
  unfold Homework.get_distance.
  assert (Hstep : exists y, LEN_STEP (Homework.class_of o) = VFloat y)
    by (destruct (Homework.class_of o); cbn; eauto).
  destruct Hstep as [y ->].
  destruct (py_mul (Homework.action o) (VFloat y)) as [m|e] eqn:Hm;
    cbn [rbind]; [|discriminate].
  apply py_mul_float_result in Hm as [x ->].
  intros H. apply py_div_float_result in H as [_ H]. exact H.
Qed.

(** X9. The summary of an instance of the base class [Training].  When
    [get_mean_speed] returns a speed: in [main.py], [show_training_info]
    raises [NotImplementedError] after it has written that speed into the
    record; in [homework.py], it returns a summary whose calories are
    [None], and [main] raises a type error when it formats them.  When
    [get_mean_speed] raises, [show_training_info] and [main] raise the same
    exception in both files.  With an [int] action count that converts to
    a float and a float duration that is not zero, [get_mean_speed]
    returns the float of [action * 0.65 / 1000 / duration]. *)
Theorem Training_show_training_info (a d w : value) :
  let self := Main.Training_init Training a d w NoAttrs in
  let record := Homework.Build Training a d w NoAttrs in
  match Homework.get_mean_speed record with
  | OK speed =>
      exists dist : value,
        Homework.get_distance record = OK dist /\
        Main.show_training_info self =
          (Raise NotImplementedError,
           Main.Build Training a d w (VFloat 0) speed NoAttrs) /\
        Homework.show_training_info record =
          OK (InfoMessage.Build "Training" d dist speed VNone) /\
        Homework.main record = Raise (TypeError BadFormat)
  | Raise e =>
      fst (Main.show_training_info self) = Raise e /\
      Homework.show_training_info record = Raise e /\
      Homework.main record = Raise e
  end /\
  (forall (n : Z) (fa fd : float),
     a = VInt n -> float_of_int n = OK fa -> d = VFloat fd ->
     (fd =? 0)%float = false ->
     Homework.get_mean_speed record = OK (VFloat (fa * 0.65 / 1000 / fd))).
Proof.
  intros self record. split.
  - assert (Hf : forget self = record) by reflexivity.
    assert (Hshow :
      Main.show_training_info self =
        match Homework.get_distance record with
        | Raise e => (Raise e, self)
        | OK dist =>
            match Homework.get_mean_speed record with
            | Raise e => (Raise e, self)
            | OK v => (Raise NotImplementedError, with_speed v self)
            end
        end).
    { cbv [Main.show_training_info Main.bind Main.attr Main.ret].
      rewrite get_distance_agrees, Hf.
      destruct (Homework.get_distance record); [|reflexivity].
      rewrite get_mean_speed_computes, Hf.
      destruct (Homework.get_mean_speed record); [|reflexivity].
      rewrite Training_get_spent_calories by reflexivity. reflexivity. }
    assert (Hspeed :
      Homework.get_mean_speed record =
        (dist <- Homework.get_distance record ;; py_div dist d)%res)
      by reflexivity.
    assert (Hinfo :
      Homework.show_training_info record =
        (dist <- Homework.get_distance record ;;
         v <- Homework.get_mean_speed record ;;
         OK (InfoMessage.Build "Training" d dist v VNone))%res)
      by reflexivity.
    rewrite Hshow. unfold Homework.main. rewrite Hinfo. clear Hshow Hinfo.
    destruct (Homework.get_distance record) as [dist|e] eqn:Hdist.
    + cbn [rbind] in Hspeed |- *.
      destruct (Homework.get_mean_speed record) as [v|e]; [|cbn; auto].
      exists dist. split; [reflexivity|]. split; [reflexivity|].
      split; [reflexivity|]. cbn [rbind].
      apply Homework_get_distance_float in Hdist as [x ->].
      symmetry in Hspeed.
      apply py_div_float_result in Hspeed as [[fd Hd] [y ->]].
      unfold InfoMessage.get_message.
      cbn [InfoMessage.duration InfoMessage.distance InfoMessage.speed
           InfoMessage.calories].
      rewrite (py_format_as_float false d fd Hd). reflexivity.
    + rewrite Hspeed. cbn. auto.
  - intros n fa fd -> Hfa -> Hfd. subst record.
    cbv [Homework.get_mean_speed Homework.Training_get_mean_speed
         Homework.get_distance Homework.class_of Homework.action
         Homework.duration LEN_STEP].
    erewrite py_mul_int_float by eassumption. cbn [rbind].
    change M_IN_KM with (VInt 1000). rewrite py_div_1000. cbn [rbind].
    now rewrite py_div_floats.
Qed.

(** ** The formulas of [SportsWalking] and [Swimming] *)





(** ** The loop of the script *)

Lemma Main_run_cons (p : string * list value) (ps : list (string * list value)) :
  Main.run (p :: ps) =
    match Main.read_package (fst p) (snd p) with
    | Raise e => ([], Some e)
    | OK training =>
        match fst (Main.main training) with
        | Raise e => ([], Some e)
        | OK line => (line :: fst (Main.run ps), snd (Main.run ps))
        end
    end.
Proof.
  destruct p as [tag vals]. cbn [Main.run Main.main_any fst snd].
  destruct (Main.read_package tag vals); [|reflexivity].
  destruct (fst (Main.main a)); [|reflexivity].
  now destruct (Main.run ps).
Qed.

Lemma Main_run_app (ps1 ps2 : list (string * list value)) :
  Main.run (ps1 ++ ps2)%list =
    match snd (Main.run ps1) with
    | None => ((fst (Main.run ps1) ++ fst (Main.run ps2))%list, snd (Main.run ps2))
    | Some e => Main.run ps1
    end.
Proof.
  induction ps1 as [|p ps1 IH].
  - cbn. now destruct (Main.run ps2).
  - cbn [app]. rewrite !Main_run_cons.
    destruct (Main.read_package p.1 p.2) as [o|e]; [|reflexivity].
    destruct (Main.main o).1 as [line|e]; [|reflexivity].
    rewrite IH. cbn [fst snd].
    destruct (Main.run ps1) as [l1 [e|]]; reflexivity.
Qed.

Lemma main_of_accepted (tag : string) (vals : list value)
    (self : Main.object) :
  accepted tag vals self ->
  match fst (Main.main self) with
  | OK _ => True
  | Raise e => arithmetic_error e
  end.
Proof.
  intros H. pose proof (accepted_numeric tag vals self H) as Hnum.
  rewrite (main_agrees self (accepted_not_Training tag vals self H)).
  destruct (zero_divisor (forget self)) eqn:Hz.
  - pose proof (Homework_main_zero _ Hnum Hz) as Hm.
    destruct (Homework.main (forget self)); [exact I | exact Hm].
  - pose proof (Homework_main_outcome _ Hnum Hz) as Hm.
    destruct (Homework.main (forget self)); [exact I|].
    right. exact Hm.
Qed.

Lemma Main_run_failure (ps : list (string * list value)) (e : exn) :
  snd (Main.run ps) = Some e ->
  (length (fst (Main.run ps)) < length ps)%nat /\
  (e = Exception Main.NOT_FOUND \/ e = Exception Main.BAD_DATA \/
   e = ZeroDivisionError \/ e = OverflowError).
Proof.
  induction ps as [|[tag vals] ps IH]; [discriminate|].
  rewrite Main_run_cons. cbn [fst snd].
  destruct (read_package_cases tag vals)
    as [(o & Ho & Hacc)|[Ho|[Ho|(a & d & w & n & _ & _ & _ & Ho)]]];
    rewrite Ho.
  - pose proof (main_of_accepted tag vals o Hacc) as Hm.
    destruct (Main.main o).1 as [line|e'].
    + cbn. intros H. destruct (IH H) as [Hl He].
      split; [lia | exact He].
    + cbn. intros [= <-]. split; [lia|]. destruct Hm; auto.
  - cbn. intros [= <-]. split; [lia | tauto].
  - cbn. intros [= <-]. split; [lia | tauto].
  - cbn. intros [= <-]. split; [lia | tauto].
Qed.

Lemma Main_run_success (ps : list (string * list value)) :
  snd (Main.run ps) = None -> length (fst (Main.run ps)) = length ps.
Proof.
  induction ps as [|[tag vals] ps IH]; [reflexivity|].
  rewrite Main_run_cons. cbn [fst snd].
  destruct (Main.read_package tag vals) as [o|e]; [|discriminate].
  destruct (Main.main o).1 as [line|e]; [|discriminate].
  cbn. intros H. now rewrite IH.
Qed.


Lemma Homework_run_cons (p : string * list value)
    (ps : list (string * list value)) :
  Homework.run (p :: ps) =
    match Homework.read_package (fst p) (snd p) with
    | Raise e => ([], Some e)
    | OK training =>
        match Homework.main training with
        | Raise e => ([], Some e)
        | OK line => (line :: fst (Homework.run ps), snd (Homework.run ps))
        end
    end.
Proof.
  destruct p as [tag vals]. cbn [Homework.run fst snd].
  destruct (Homework.read_package tag vals); [|reflexivity].
  destruct (Homework.main a); [|reflexivity].
  now destruct (Homework.run ps).
Qed.

(** X15. On a list of packages that [main.py] runs to the end, or to a
    division by zero or an overflow, [homework.py] prints the same lines
    and ends the same way. *)
Theorem run_agrees (ps : list (string * list value)) :
  snd (Main.run ps) = None \/ snd (Main.run ps) = Some ZeroDivisionError \/
  snd (Main.run ps) = Some OverflowError ->
  Homework.run ps = Main.run ps.
Proof.
  induction ps as [|[tag vals] ps IH]; [reflexivity|].
  rewrite Main_run_cons, Homework_run_cons. cbn [fst snd].
  pose proof (read_package_agrees_result tag vals) as Hr.
  destruct (Main.read_package tag vals) as [o|e] eqn:Ho.
  - rewrite Hr.
    rewrite <- (main_agrees o
                  (accepted_not_Training _ _ _ (read_package_accepted _ _ _ Ho))).
    destruct (Main.main o).1 as [line|e]; [|reflexivity].
    cbn [snd]. intros H. now rewrite (IH H).
  - cbn [snd]. intros [H|[H|H]]; try discriminate;
      injection H as ->; rewrite Hr; reflexivity.
Qed.

Lemma run_agrees_witness :
  Homework.run [("RUN", [VInt 15000; VInt 1; VInt 75]);
                ("SWM", [VInt 720; VInt 0; VInt 80; VInt 25; VInt 40])] =
  Main.run [("RUN", [VInt 15000; VInt 1; VInt 75]);
            ("SWM", [VInt 720; VInt 0; VInt 80; VInt 25; VInt 40])].
Proof.
  apply (run_agrees [("RUN", [VInt 15000; VInt 1; VInt 75]);
                     ("SWM", [VInt 720; VInt 0; VInt 80; VInt 25; VInt 40])]).
  right. left. vm_compute. reflexivity.
Defined.

(** X16. The script of [main.py] prints the summaries of its three
    packages, a swim, a run and a walk, and ends normally; the script of
    [homework.py] prints the same three lines. *)
Theorem program_output :
  Main.program =
    (["Тип тренировки: Swimming; Длительность: 1.000 ч.; Дистанция: 0.994 км; Ср. скорость: 1.000 км/ч; Потрачено ккал: 336.000.";
      "Тип тренировки: Running; Длительность: 1.000 ч.; Дистанция: 9.750 км; Ср. скорость: 9.750 км/ч; Потрачено ккал: 797.805.";
      "Тип тренировки: SportsWalking; Длительность: 1.000 ч.; Дистанция: 5.850 км; Ср. скорость: 5.850 км/ч; Потрачено ккал: 349.252."],
     None) /\
  Homework.program = Main.program.
Proof. split; vm_compute; reflexivity. Qed.

(** ** A missing value in [homework.py] *)

Lemma only_overflow_number_or_fails (r : result value) :
  only_overflow is_number r -> number_or_fails r.
Proof. destruct r; cbn; [auto|]. intros ->. right. right. reflexivity. Qed.

Lemma raises_number_or_fails (r : result value) :
  raises_arithmetic_error r -> number_or_fails r.
Proof.
  destruct r; cbn; [contradiction|]. unfold operand_error. intros [->| ->]; auto.
Qed.

Lemma py_mul_any (a b : value) : number_or_fails (py_mul a b).
Proof.
  destruct (a) as [|x|x] eqn:Ea, (b) as [|y|y] eqn:Eb;
    try (left; reflexivity);
    apply only_overflow_number_or_fails, py_mul_outcome; exact I.
Qed.

Lemma py_add_any (a b : value) : number_or_fails (py_add a b).
Proof.
  destruct (a) as [|x|x] eqn:Ea, (b) as [|y|y] eqn:Eb;
    try (left; reflexivity);
    apply only_overflow_number_or_fails, py_add_outcome; exact I.
Qed.

Lemma py_pow_2_any (a : value) : number_or_fails (py_pow_2 a).
Proof.
  destruct (a) as [|x|x] eqn:Ea; [left; reflexivity|..];
    apply only_overflow_number_or_fails, py_pow_2_outcome; exact I.
Qed.

Lemma py_div_any (a b : value) : number_or_fails (py_div a b).
Proof.
  destruct (is_zero_value b) eqn:Hz.
  - destruct a as [|x|x]; [destruct b; left; reflexivity|..];
      apply raises_number_or_fails, py_div_by_zero; auto; exact I.
  - destruct (a) as [|x|x] eqn:Ea, (b) as [|y|y] eqn:Eb;
      try (left; reflexivity);
      apply only_overflow_number_or_fails, py_div_outcome; auto; exact I.
Qed.

Lemma py_mul_None (a b : value) :
  a = VNone \/ b = VNone -> fails (py_mul a b).
Proof. intros [-> | ->]; [|destruct a]; left; reflexivity. Qed.

Lemma py_div_None (a b : value) :
  a = VNone \/ b = VNone -> fails (py_div a b).
Proof. intros [-> | ->]; [|destruct a]; left; reflexivity. Qed.

Lemma fails_bind {A B : Type} (r : result A) (k : A -> result B) :
  fails r -> fails (rbind r k).
Proof. destruct r; cbn; [contradiction | auto]. Qed.

Lemma fails_after {B : Type} (r : result value) (k : value -> result B) :
  number_or_fails r -> (forall v, is_number v -> fails (k v)) ->
  fails (rbind r k).
Proof. destruct r; cbn; auto. Qed.

Lemma number_or_fails_bind (r : result value) (k : value -> result value) :
  number_or_fails r -> (forall v, is_number v -> number_or_fails (k v)) ->
  number_or_fails (rbind r k).
Proof. destruct r; cbn; auto. Qed.

(** Splits a formula into its operations, each of which returns a number
    or fails. *)
Ltac any_steps :=
  repeat first
    [ assumption
    | apply py_mul_any
    | apply py_add_any
    | apply py_pow_2_any
    | apply py_div_any
    | apply number_or_fails_bind; [|intros ? ?] ].

(** Runs a formula up to the operation that meets [None]. *)
Ltac fails_steps :=
  repeat first
    [ apply fails_bind; first [ apply py_mul_None | apply py_div_None ];
      tauto
    | apply py_div_None; tauto
    | apply py_mul_None; tauto
    | apply fails_after; [any_steps | intros ? ?] ].

Section ConstructedRecord.

Variable o : Homework.object.
Hypothesis Hcons : constructed o.

Lemma Homework_get_distance_any : number_or_fails (Homework.get_distance o).
Proof. unfold Homework.get_distance. any_steps. Qed.

Lemma Homework_get_mean_speed_any :
  number_or_fails (Homework.get_mean_speed o).
Proof.
  pose proof Homework_get_distance_any as Hdist.
  unfold constructed in Hcons. unfold Homework.get_mean_speed.
  destruct (Homework.class_of o), (Homework.own o) as [|h|l c] eqn:Ho;
    try contradiction.
  - unfold Homework.Training_get_mean_speed. any_steps.
  - unfold Homework.Training_get_mean_speed. any_steps.
  - cbv [Homework.Swimming_get_mean_speed Homework.length_pool
         Homework.count_pool].
    rewrite Ho. cbn [Homework.attribute rbind]. any_steps.
Qed.

Lemma Homework_get_mean_speed_None :
  Homework.duration o = VNone \/
  match Homework.own o with
  | SwimmingAttrs l c => l = VNone \/ c = VNone
  | _ => False
  end ->
  fails (Homework.get_mean_speed o).
Proof.
  pose proof Homework_get_distance_any as Hdist.
  unfold constructed in Hcons. unfold Homework.get_mean_speed.
  destruct (Homework.class_of o), (Homework.own o) as [|h|l c] eqn:Ho;
    try contradiction; intros [Hd|Hn]; try contradiction.
  - unfold Homework.Training_get_mean_speed. fails_steps.
  - unfold Homework.Training_get_mean_speed. fails_steps.
  - cbv [Homework.Swimming_get_mean_speed Homework.length_pool
         Homework.count_pool].
    rewrite Ho. cbn [Homework.attribute rbind]. fails_steps.
  - cbv [Homework.Swimming_get_mean_speed Homework.length_pool
         Homework.count_pool].
    rewrite Ho. cbn [Homework.attribute rbind]. fails_steps.
Qed.

Lemma Homework_get_spent_calories_None :
  Homework.weight o = VNone -> fails (Homework.get_spent_calories o).
Proof.
  intros Hw. pose proof Homework_get_mean_speed_any as Hspeed.
  unfold constructed in Hcons. unfold Homework.get_spent_calories.
  destruct (Homework.class_of o), (Homework.own o) as [|h|l c] eqn:Ho;
    try contradiction.
  - unfold Homework.Running_get_spent_calories. fails_steps.
  - unfold Homework.SportsWalking_get_spent_calories. fails_steps.
  - unfold Homework.Swimming_get_spent_calories. fails_steps.
Qed.

Lemma Homework_show_training_info_None :
  holds_None o -> fails (Homework.show_training_info o).
Proof.
  intros [Ha|[Hd|[Hw|Hn]]]; unfold Homework.show_training_info.
  - apply fails_bind. unfold Homework.get_distance. fails_steps.
  - apply fails_after; [exact Homework_get_distance_any|]. intros dist _.
    apply fails_bind, Homework_get_mean_speed_None. tauto.
  - apply fails_after; [exact Homework_get_distance_any|]. intros dist _.
    apply fails_after; [exact Homework_get_mean_speed_any|]. intros v _.
    apply fails_bind, Homework_get_spent_calories_None, Hw.
  - apply fails_after; [exact Homework_get_distance_any|]. intros dist _.
    apply fails_bind, Homework_get_mean_speed_None. tauto.
Qed.

End ConstructedRecord.

Lemma Homework_read_package_constructed (tag : string) (vals : list value)
    (self : Homework.object) :
  Homework.read_package tag vals = OK self ->
  In VNone vals -> constructed self /\ holds_None self.
Proof.
  unfold Homework.read_package, subscript.
  rewrite Homework_training_classes_lookup.
  repeat case_decide; subst; cbn [rbind]; try discriminate;
    destruct vals as [|a [|d [|w [|x [|y [|z rest]]]]]]; try discriminate;
    cbn [Homework.new].
  - intros [= <-] Hin. split; [exact I|]. unfold holds_None. cbn in *.
    intuition auto.
  - intros [= <-] Hin. split; [exact I|]. unfold holds_None. cbn in *.
    intuition auto.
  - pose proof (py_div_any x CM_IN_METER) as Hany.
    destruct (py_div x CM_IN_METER) as [h|e] eqn:Hdiv; cbn [rbind];
      [|discriminate].
    intros [= <-] Hin. split; [exact Hany|]. unfold holds_None. cbn in *.
    destruct Hin as [Hi|[Hi|[Hi|[Hi|[]]]]]; auto.
    subst x. discriminate Hdiv.
Qed.


